(** * Congress-Alpha: the daily PTR pipeline

    A shallow embedding of [Scripts/ptr_pdf_processor.py] and
    [Scripts/daily_ptr_checker.py], followed by the properties of the
    orchestration core: the dedup filter, the budget split between the House
    and the Senate stage, the batch extractor, the normaliser and the
    persistence step.

    Python values are a small tagged union, dicts are finite maps keyed by
    strings, and every function that logs, calls a collaborator or may raise
    lives in a writer-plus-exception monad whose trace records the log lines
    and the collaborator calls in program order. *)

From Stdlib Require Import ZArith Ascii String List Lia.
From stdpp Require Import base gmap strings list pretty.

Local Open Scope string_scope.
Local Open Scope list_scope.
Local Open Scope Z_scope.

(** ** Python values *)

Module Py.

Inductive value : Type :=
| VNone
| VBool (b : bool)
| VInt (n : Z)
| VStr (s : string).

#[global] Instance value_eq_dec : EqDecision value.
Proof. solve_decision. Defined.

(** [bool(v)]: what [if v] and [not v] test. *)
Definition truthy (v : value) : bool :=
  match v with
  | VNone => false
  | VBool b => b
  | VInt n => negb (n =? 0)%Z
  | VStr s => negb (String.eqb s "")
  end.

(** [str(v)], as an f-string interpolates it. *)
Definition str (v : value) : string :=
  match v with
  | VNone => "None"
  | VBool true => "True"
  | VBool false => "False"
  | VInt n => pretty n
  | VStr s => s
  end.

(** [v or w] *)
Definition or_else (v w : value) : value := if truthy v then v else w.

(** [d.get(k)] and [d.get(k, dflt)] on a dict with string keys. *)
Definition get (d : gmap string value) (k : string) : value :=
  default VNone (d !! k).

Definition get_or (d : gmap string value) (k : string) (dflt : value) : value :=
  default dflt (d !! k).

(** [len(l)] as a Python int. *)
Definition len {A} (l : list A) : Z := Z.of_nat (length l).

(** The newline character of ["\n"]. *)
Definition nl : string := String (ascii_of_nat 10) EmptyString.

(** [sep.join(parts)] *)
Fixpoint join (sep : string) (parts : list string) : string :=
  match parts with
  | [] => ""
  | [p] => p
  | p :: rest => p +:+ sep +:+ join sep rest
  end.

(** A Python [str] is held as the UTF-8 encoding of its code points, which
    is also how a string literal of this file is read. White space is what
    [str.isspace] and [str.strip] take for it: in ASCII the tab, line feed,
    vertical tab, form feed, carriage return, the four separators 0x1c-0x1f
    and the space; beyond ASCII the code points U+0085, U+00A0, U+1680,
    U+2000 to U+200A, U+2028, U+2029, U+202F, U+205F and U+3000. *)
Definition is_space (c : ascii) : bool :=
  let n := nat_of_ascii c in
  ((9 <=? n)%nat && (n <=? 13)%nat) || ((28 <=? n)%nat && (n <=? 32)%nat).

(** U+0085 (bytes c2 85) and U+00A0 (bytes c2 a0). *)
Definition is_space2 (b1 b2 : ascii) : bool :=
  let n1 := nat_of_ascii b1 in
  let n2 := nat_of_ascii b2 in
  (n1 =? 194)%nat && ((n2 =? 133)%nat || (n2 =? 160)%nat).

(** U+1680 (bytes e1 9a 80), U+2000 to U+200A (e2 80 80 to e2 80 8a),
    U+2028 (e2 80 a8), U+2029 (e2 80 a9), U+202F (e2 80 af), U+205F
    (e2 81 9f) and U+3000 (e3 80 80). *)
Definition is_space3 (b1 b2 b3 : ascii) : bool :=
  let n1 := nat_of_ascii b1 in
  let n2 := nat_of_ascii b2 in
  let n3 := nat_of_ascii b3 in
  ((n1 =? 225)%nat && (n2 =? 154)%nat && (n3 =? 128)%nat)
  || ((n1 =? 226)%nat && (n2 =? 128)%nat
      && (((128 <=? n3)%nat && (n3 <=? 138)%nat)
          || (n3 =? 168)%nat || (n3 =? 169)%nat || (n3 =? 175)%nat))
  || ((n1 =? 226)%nat && (n2 =? 129)%nat && (n3 =? 159)%nat)
  || ((n1 =? 227)%nat && (n2 =? 128)%nat && (n3 =? 128)%nat).

(** [s.lstrip()]: drops the white-space characters at the front, of one,
    two or three bytes each. *)
Fixpoint lstrip (s : string) : string :=
  match s with
  | String b1 rest1 =>
      if is_space b1 then lstrip rest1
      else
        match rest1 with
        | String b2 rest2 =>
            if is_space2 b1 b2 then lstrip rest2
            else
              match rest2 with
              | String b3 rest3 => if is_space3 b1 b2 b3 then lstrip rest3 else s
              | EmptyString => s
              end
        | EmptyString => s
        end
  | EmptyString => EmptyString
  end.

(** [s.rstrip()]: a suffix that is white space throughout is dropped. *)
Fixpoint rstrip (s : string) : string :=
  match s with
  | String b rest =>
      match lstrip s with
      | EmptyString => EmptyString
      | _ => String b (rstrip rest)
      end
  | EmptyString => EmptyString
  end.

(** [s.strip()] *)
Definition strip (s : string) : string := rstrip (lstrip s).

(** [bool(s)] for a string. *)
Definition nonempty (s : string) : bool := negb (String.eqb s "").

End Py.

(** ** Effects: log lines, collaborator calls and exceptions *)

Module Eff.
Import Py.

Inductive level : Type := INFO | WARNING | ERROR.

(** The collaborators the two scripts call; each call is observable in the
    trace of a run. *)
Inductive call : Type :=
| HorScan (pdf_url : value)
| HorParse (llm_csv : value)
| RequestsGet (pdf_url : value)
| FitzOpen (pdf_bytes : list Byte.byte)
| PageGetText (index : nat)
| HouseScraperInit (headless : bool)
| HouseScrapePtrFilings (year : Z) (max_pages : option Z)
| SaveScrapeJson (out_path : string)
| DbInit
| DbGetExistingDocIds
| DbProcessTransactionsBatch (transactions : list (gmap string value))
| SenateScrapeAllPtrLinks
| ChromeStart (headless : bool)
| VerifySession
| DriverGet (url : value)
| ExtractTextFromPage (doc_id : value)
| SenateCallLlm (text : string) (doc_id : value)
| SenateParse (csv_text : value)
| DriverQuit.

Inductive event : Type :=
| Log (lvl : level) (msg : string)
| Call (c : call).

(** What a statement or a collaborator call ends in: a value, or an
    exception (an instance of [Exception]) with its [str(e)]. *)
Inductive outcome (A : Type) : Type :=
| Ok (a : A)
| Raised (e : string).
Arguments Ok {A} a.
Arguments Raised {A} e.

(** A computation: the trace it writes and how it ends. *)
Definition M (A : Type) : Type := list event * outcome A.

Definition ret {A} (a : A) : M A := ([], Ok a).

Definition bind {A B} (m : M A) (k : A → M B) : M B :=
  match m with
  | (written, Ok a) => let '(later, r) := k a in (written ++ later, r)
  | (written, Raised e) => (written, Raised e)
  end.

(** [logger.info], [logger.warning], [logger.error] *)
Definition log (lvl : level) (msg : string) : M unit := ([Log lvl msg], Ok tt).

(** Calling a collaborator whose behaviour on these arguments is [r]. *)
Definition invoke {A} (c : call) (r : outcome A) : M A := ([Call c], r).

(** [try: body / except Exception as e: handler e] *)
Definition try_except {A} (body : M A) (handler : string → M A) : M A :=
  match body with
  | (written, Ok a) => (written, Ok a)
  | (written, Raised e) => let '(later, r) := handler e in (written ++ later, r)
  end.

(** [try: body / finally: cleanup] *)
Definition try_finally {A} (body : M A) (cleanup : M unit) : M A :=
  match body, cleanup with
  | (written, r), (later, Ok _) => (written ++ later, r)
  | (written, _), (later, Raised e) => (written ++ later, Raised e)
  end.

Definition trace {A} (m : M A) : list event := m.1.
Definition result {A} (m : M A) : outcome A := m.2.

End Eff.

Import Py Eff.

Notation "'let*' x ':=' m 'in' k" := (bind m (λ x, k))
  (at level 10, x name, m at level 100, k at level 200, only parsing).
Notation "m ';;;' k" := (bind m (λ _, k))
  (at level 100, k at level 200, right associativity, only parsing).

(** ** Scripts/ptr_pdf_processor.py *)

Module ptr_pdf_processor.

(** A [requests] response: what [raise_for_status] does and the body. *)
Record response : Type := {
  raise_for_status : outcome unit;
  content : list Byte.byte
}.

(** The collaborators of the module. The two names imported from the HOR
    script are [None] when that import failed. A PDF document is the list of
    its pages, a page is what its [get_text()] ends in. *)
Record env : Type := {
  hor_scan_with_openrouter : option (value → gmap string value → outcome value);
  hor_parse_llm_transactions :
    option (value → gmap string value → outcome (list (gmap string value)));
  requests_get : value → outcome response;
  fitz_open : list Byte.byte → outcome (list (outcome string))
}.

Section with_env.
Context (E : env).

(** The loop of [_extract_pdf_text] over [range(len(doc))]. *)
Fixpoint extract_pages (i : nat) (doc : list (outcome string)) (text : list string)
  : M (list string) :=
  match doc with
  | [] => ret text
  | page :: rest =>
      let* page_text := invoke (PageGetText i) page in
      if nonempty page_text
      then extract_pages (S i) rest (text ++ [page_text])
      else extract_pages (S i) rest text
  end.

Definition _extract_pdf_text (pdf_bytes : list Byte.byte) : M string :=
  try_except
    (let* doc := invoke (FitzOpen pdf_bytes) (fitz_open E pdf_bytes) in
     let* text := extract_pages 0 doc [] in
     ret (join nl text))
    (λ e, log ERROR ("PDF text extraction failed: " +:+ e) ;;; ret "").

Definition _download (pdf_url : value) : M (list Byte.byte) :=
  let* response := invoke (RequestsGet pdf_url) (requests_get E pdf_url) in
  let* _ := (([], raise_for_status response) : M unit) in
  ret (content response).

(** The dict literal appended for one parsed row [t]. *)
Definition normalized_row (t : gmap string value) : gmap string value :=
  <["comment" := get_or t "raw_llm_line" (VStr "")]>
  (<["owner" := get t "owner_code"]>
  (<["amount_high" := get t "amount_high"]>
  (<["amount_low" := get t "amount_low"]>
  (<["transaction_type" := get t "transaction_type_full"]>
  (<["asset_name" := get t "company_name"]>
  (<["ticker" := get t "ticker"]>
  (<["transaction_date" := get t "transaction_date_str"]> ∅))))))).

Fixpoint normalize_rows (parsed normalized : list (gmap string value))
  : list (gmap string value) :=
  match parsed with
  | [] => normalized
  | t :: rest => normalize_rows rest (normalized ++ [normalized_row t])
  end.

Definition _normalize_transactions (llm_csv_text : value) (member_data : gmap string value)
  : M (list (gmap string value)) :=
  match hor_parse_llm_transactions E with
  | None =>
      log WARNING "parse_llm_transactions not available; returning empty transactions" ;;;
      ret []
  | Some parse =>
      let* parsed := invoke (HorParse llm_csv_text) (parse llm_csv_text member_data) in
      ret (normalize_rows parsed [])
  end.

(** The [try] block of [process_ptr_pdf], entered when both HOR names were
    imported: [Some] of the dict it returns, [None] when control falls
    through to the fallback. *)
Definition process_ptr_pdf_scan (pdf_url doc_id : value)
  : M (option (gmap string (list (gmap string value)))) :=
  match hor_scan_with_openrouter E, hor_parse_llm_transactions E with
  | Some scan, Some _ =>
      try_except
        (let* llm_csv :=
           invoke (HorScan pdf_url) (scan pdf_url {["DocID" := doc_id]}) in
         let* transactions := _normalize_transactions llm_csv {["DocID" := doc_id]} in
         ret (Some {["transactions" := transactions]}))
        (λ e,
           log WARNING
             ("HOR scan_with_openrouter failed, falling back to local text extraction: "
                +:+ e) ;;;
           ret None)
  | _, _ => ret None
  end.

(** The fallback of [process_ptr_pdf]: download and local text extraction. *)
Definition process_ptr_pdf_fallback (pdf_url : value)
  : M (gmap string (list (gmap string value))) :=
  let* downloaded :=
    try_except
      (let* pdf_bytes := _download pdf_url in ret (Some pdf_bytes))
      (λ e, log ERROR ("Failed to download PDF: " +:+ e) ;;; ret None) in
  match downloaded with
  | None => ret {["transactions" := []]}
  | Some pdf_bytes =>
      let* text := _extract_pdf_text pdf_bytes in
      if negb (nonempty (strip text))
         || negb (bool_decide (is_Some (hor_parse_llm_transactions E)))
      then ret {["transactions" := []]}
      else
        log INFO "No LLM CSV available without API. Returning no transactions." ;;;
        ret {["transactions" := []]}
  end.

Definition process_ptr_pdf (pdf_url doc_id : value)
  : M (gmap string (list (gmap string value))) :=
  log INFO ("Processing PDF for doc_id=" +:+ str doc_id) ;;;
  let* scanned := process_ptr_pdf_scan pdf_url doc_id in
  match scanned with
  | Some processed => ret processed
  | None => process_ptr_pdf_fallback pdf_url
  end.

End with_env.

End ptr_pdf_processor.

(** ** Scripts/daily_ptr_checker.py *)

Module daily_ptr_checker.

(** The parsed command line. [--headless], [--house] and [--senate] are
    restricted by [choices] to ["true"] and ["false"], so the comparisons
    [args.x.lower() == "true"] are kept as the booleans they compute. *)
Record args : Type := {
  arg_year : Z;
  arg_headless : bool;
  arg_limit : Z;
  arg_max_pages : Z;
  arg_dry_run : bool;
  arg_save_scrape_json : bool;
  arg_house : bool;
  arg_senate : bool
}.

(** One item of what the Senate scraper returns: a tuple, a dict, or
    anything else. *)
Inductive link_item : Type :=
| ItemTuple (fields : list value)
| ItemDict (d : gmap string value)
| ItemOther.

(** The [scanToTextLLM] module of the Senate script. *)
Record senate_llm_module : Type := {
  call_llm_api_with_text : string → gmap string value → outcome value;
  parse_llm_transactions : value → gmap string value → outcome (list (gmap string value))
}.

(** The collaborators of the driver. [senate_scraper] and [senate_llm] are
    [None] when the Senate imports failed; [verify_session] and
    [extract_text_from_page] are bound whenever [senate_llm] is, and are only
    looked at after [senate_llm] was found not to be [None]. *)
Record env : Type := {
  pdf_env : ptr_pdf_processor.env;
  house_scraper_init : bool → outcome unit;
  scrape_ptr_filings : Z → option Z → outcome (list (gmap string value));
  script_dir : string;
  save_json : string → Z → list (gmap string value) → outcome unit;
  json_dumps : gmap string value → string;
  supabase_init : outcome unit;
  get_existing_doc_ids : outcome (gset string);
  process_transactions_batch : list (gmap string value) → outcome (gmap string value);
  senate_scraper : option (outcome (list link_item));
  senate_llm : option senate_llm_module;
  chrome_start : bool → outcome unit;
  verify_session : outcome unit;
  driver_get : value → outcome unit;
  extract_text_from_page : value → outcome string;
  driver_quit : outcome unit
}.

(** [doc_id in existing_doc_ids] for a set of strings: no other value is
    equal to a string. *)
Definition in_ids (doc_id : value) (existing_doc_ids : gset string) : bool :=
  match doc_id with
  | VStr s => bool_decide (s ∈ existing_doc_ids)
  | _ => false
  end.

(** [d or {}] for a dict [d]. *)
Definition or_empty {V} (d : gmap string V) : gmap string V :=
  if decide (d = ∅) then ∅ else d.

(** [bool(l)] for a list. *)
Definition some_items {A} (l : list A) : bool :=
  match l with [] => false | _ => true end.

(** *** filter_new_filings *)

Fixpoint filter_new_loop (filings : list (gmap string value))
    (existing_doc_ids : gset string) (limit : Z)
    (new_filings : list (gmap string value)) : list (gmap string value) :=
  match filings with
  | [] => new_filings
  | f :: rest =>
      let doc_id := get f "doc_id" in
      if negb (truthy doc_id)
      then filter_new_loop rest existing_doc_ids limit new_filings
      else if negb (in_ids doc_id existing_doc_ids)
      then
        let new_filings := new_filings ++ [f] in
        if (0 <? limit) && (limit <=? len new_filings)
        then new_filings
        else filter_new_loop rest existing_doc_ids limit new_filings
      else filter_new_loop rest existing_doc_ids limit new_filings
  end.

Definition filter_new_filings (filings : list (gmap string value))
    (existing_doc_ids : gset string) (limit : Z) : M (list (gmap string value)) :=
  let new_filings := filter_new_loop filings existing_doc_ids limit [] in
  log INFO ("Filtered new filings: " +:+ pretty (len new_filings)
            +:+ " (from " +:+ pretty (len filings) +:+ " total scraped)") ;;;
  ret new_filings.

(** *** process_filings_to_transactions *)

Section batch_extractor.
(** The extraction adapter the module imports as [process_ptr_pdf]. *)
Context (process_ptr_pdf : value → value → M (gmap string (list (gmap string value)))).

(** [tx = dict(t)] followed by the four assignments. *)
Definition tagged (doc_id member_name office pdf_url : value) (t : gmap string value)
  : gmap string value :=
  <["pdf_url" := pdf_url]>
  (<["office" := office]>
  (<["member_name" := member_name]>
  (<["doc_id" := doc_id]> t))).

Fixpoint tag_rows (doc_id member_name office pdf_url : value)
    (transactions all_transactions : list (gmap string value))
  : list (gmap string value) :=
  match transactions with
  | [] => all_transactions
  | t :: rest =>
      tag_rows doc_id member_name office pdf_url rest
        (all_transactions ++ [tagged doc_id member_name office pdf_url t])
  end.

Fixpoint process_filings_loop (total : Z) (idx : Z)
    (new_filings all_transactions : list (gmap string value))
  : M (list (gmap string value)) :=
  match new_filings with
  | [] => ret all_transactions
  | filing :: rest =>
      let doc_id := get filing "doc_id" in
      let pdf_url := get filing "pdf_url" in
      let member_name := get filing "member_name" in
      let office := get filing "office" in
      log INFO ("[" +:+ pretty idx +:+ "/" +:+ pretty total
                +:+ "] Processing filing doc_id=" +:+ str doc_id
                +:+ " member=" +:+ str member_name) ;;;
      let* all_transactions :=
        try_except
          (let* processed := process_ptr_pdf pdf_url doc_id in
           let transactions := default [] (or_empty processed !! "transactions") in
           let extended :=
             tag_rows doc_id member_name office pdf_url transactions all_transactions in
           log INFO ("doc_id=" +:+ str doc_id +:+ ": extracted "
                     +:+ pretty (len transactions) +:+ " transaction(s)") ;;;
           ret extended)
          (λ e,
             log ERROR ("Failed processing doc_id=" +:+ str doc_id +:+ ": " +:+ e) ;;;
             ret all_transactions) in
      process_filings_loop total (idx + 1) rest all_transactions
  end.

Definition process_filings_to_transactions (new_filings : list (gmap string value))
  : M (list (gmap string value)) :=
  process_filings_loop (len new_filings) 1 new_filings [].

End batch_extractor.

Section with_env.
Context (E : env).

(** *** scrape_ptrs *)

Definition scrape_ptrs (year : Z) (headless : bool) (max_pages : Z)
  : M (list (gmap string value)) :=
  log INFO ("Starting scrape for year=" +:+ pretty year
            +:+ ", headless=" +:+ str (VBool headless)
            +:+ ", max_pages=" +:+ (if max_pages <=? 0 then "ALL" else pretty max_pages)) ;;;
  invoke (HouseScraperInit headless) (house_scraper_init E headless) ;;;
  let pages := if max_pages <=? 0 then None else Some max_pages in
  let* filings := invoke (HouseScrapePtrFilings year pages) (scrape_ptr_filings E year pages) in
  (if some_items filings
   then log INFO ("Scrape complete: " +:+ pretty (len filings) +:+ " filings found")
   else log WARNING "Scrape returned no filings") ;;;
  ret filings.

(** *** senate_scrape_links *)

Fixpoint normalize_links (links : list link_item) (normalized : list (value * value * value))
  : list (value * value * value) :=
  match links with
  | [] => normalized
  | ItemTuple [doc_id; url; member_name] :: rest =>
      normalize_links rest (normalized ++ [(doc_id, url, member_name)])
  | ItemTuple _ :: rest => normalize_links rest normalized
  | ItemDict d :: rest =>
      normalize_links rest (normalized ++ [(get d "doc_id", get d "url", get d "member_name")])
  | ItemOther :: rest => normalize_links rest normalized
  end.

Definition senate_scrape_links (max_pages : Z) : M (list (value * value * value)) :=
  match senate_scraper E with
  | None =>
      log WARNING "Senate scraper not available; skipping Senate scrape" ;;;
      ret []
  | Some scrape_all_ptr_links =>
      try_except
        (let* links := invoke SenateScrapeAllPtrLinks scrape_all_ptr_links in
         ret (normalize_links links []))
        (λ e, log ERROR ("Senate scraping failed: " +:+ e) ;;; ret [])
  end.

(** *** senate_links_to_transactions *)

(** The dict literal appended for one parsed Senate row [t]. *)
Definition senate_row (doc_id member_name url : value) (t : gmap string value)
  : gmap string value :=
  <["comment" := get_or t "raw_llm_line" (VStr "")]>
  (<["owner" := get t "owner_code"]>
  (<["amount_high" := get t "amount_high"]>
  (<["amount_low" := get t "amount_low"]>
  (<["transaction_date" := get t "transaction_date_str"]>
  (<["transaction_type" := get t "transaction_type_full"]>
  (<["asset_name" := get t "company_name"]>
  (<["ticker" := get t "ticker"]>
  (<["pdf_url" := url]>
  (<["office" := VStr "Senate"]>
  (<["member_name" := member_name]>
  (<["doc_id" := doc_id]> ∅))))))))))).

Fixpoint senate_rows (doc_id member_name url : value)
    (parsed transactions : list (gmap string value)) : list (gmap string value) :=
  match parsed with
  | [] => transactions
  | t :: rest =>
      senate_rows doc_id member_name url rest
        (transactions ++ [senate_row doc_id member_name url t])
  end.

(** The body of the [try] for one link. *)
Definition senate_process_link (llm : senate_llm_module) (doc_id url member_name : value)
    (transactions : list (gmap string value)) : M (list (gmap string value)) :=
  invoke (DriverGet url) (driver_get E url) ;;;
  let* text := invoke (ExtractTextFromPage doc_id) (extract_text_from_page E doc_id) in
  if negb (nonempty (strip text))
  then
    log INFO ("Senate " +:+ str doc_id +:+ ": no text extracted") ;;;
    ret transactions
  else
    let* csv_text :=
      invoke (SenateCallLlm text doc_id)
        (call_llm_api_with_text llm text
           (<["URL" := url]> (<["Name" := member_name]> {["DocID" := doc_id]}))) in
    let csv := or_else csv_text (VStr "") in
    let* parsed := invoke (SenateParse csv) (parse_llm_transactions llm csv {["DocID" := doc_id]}) in
    let extended := senate_rows doc_id member_name url parsed transactions in
    log INFO ("Senate " +:+ str doc_id +:+ ": extracted "
              +:+ pretty (len parsed) +:+ " transaction(s)") ;;;
    ret extended.

Fixpoint senate_links_loop (llm : senate_llm_module) (links : list (value * value * value))
    (max_count count : Z) (transactions : list (gmap string value))
  : M (list (gmap string value)) :=
  match links with
  | [] => ret transactions
  | (doc_id, url, member_name) :: rest =>
      if negb (truthy doc_id) || negb (truthy url)
      then senate_links_loop llm rest max_count count transactions
      else if (0 <? max_count) && (max_count <=? count)
      then ret transactions
      else
        let count := count + 1 in
        let* transactions :=
          try_except
            (senate_process_link llm doc_id url member_name transactions)
            (λ e,
               log ERROR ("Senate " +:+ str doc_id +:+ ": processing failed: " +:+ e) ;;;
               ret transactions) in
        senate_links_loop llm rest max_count count transactions
  end.

Definition senate_links_to_transactions (links : list (value * value * value))
    (headless : bool) (max_count : Z) : M (list (gmap string value)) :=
  match senate_llm E with
  | None =>
      log WARNING "Senate helpers not available; skipping Senate processing" ;;;
      ret []
  | Some llm =>
      invoke (ChromeStart headless) (chrome_start E headless) ;;;
      try_finally
        (invoke VerifySession (verify_session E) ;;;
         senate_links_loop llm links max_count 0 [])
        (invoke DriverQuit (driver_quit E))
  end.

(** *** persist_transactions *)

Definition persist_transactions (transactions : list (gmap string value)) (dry_run : bool)
  : M (gmap string value) :=
  if dry_run
  then
    log INFO "Dry-run enabled: skipping DB writes. Preview of first transaction (if any):" ;;;
    match transactions with
    | first :: _ => log INFO (json_dumps E first)
    | [] => ret tt
    end ;;;
    ret (<["transactions" := VInt (len transactions)]> {["dry_run" := VBool true]})
  else
    invoke DbInit (supabase_init E) ;;;
    let* stats :=
      invoke (DbProcessTransactionsBatch transactions)
        (process_transactions_batch E transactions) in
    ret stats.

(** *** main *)

(** Lines 258 and 259: the quota handed to the Senate stage. *)
Definition remaining (limit : Z) (all_transactions : list (gmap string value)) : Z :=
  if 0 <? limit then Z.max 0 (limit - len all_transactions) else 0.

Definition max_count (include_house : bool) (limit remaining : Z) : Z :=
  if include_house && (0 <? remaining)
  then remaining
  else if 0 <? limit then limit else 0.

(** Step 1: the optional House scrape. *)
Definition main_scrape_house (a : args) : M (list (gmap string value)) :=
  if arg_house a
  then
    let* filings := scrape_ptrs (arg_year a) (arg_headless a) (arg_max_pages a) in
    (if arg_save_scrape_json a
     then
       let out_path :=
         script_dir E +:+ "/house_scraped_filings_" +:+ pretty (arg_year a) +:+ ".json" in
       invoke (SaveScrapeJson out_path) (save_json E out_path (arg_year a) filings) ;;;
       log INFO ("Saved scraped filings JSON to " +:+ out_path)
     else ret tt) ;;;
    ret filings
  else ret [].

(** Step 3: House processing; the result is [all_transactions] after it. *)
Definition main_house (a : args) (filings : list (gmap string value))
    (existing_doc_ids : gset string) : M (list (gmap string value)) :=
  let limit := Z.max 0 (arg_limit a) in
  if arg_house a && some_items filings
  then
    let* new_filings := filter_new_filings filings existing_doc_ids limit in
    if some_items new_filings
    then
      let* house_transactions :=
        process_filings_to_transactions
          (ptr_pdf_processor.process_ptr_pdf (pdf_env E)) new_filings in
      ret ([] ++ house_transactions)
    else
      log INFO "No new House filings to process." ;;;
      ret []
  else ret [].

(** Step 4: Senate processing; the result is [all_transactions] after it. *)
Definition main_senate (a : args) (existing_doc_ids : gset string)
    (all_transactions : list (gmap string value)) : M (list (gmap string value)) :=
  let limit := Z.max 0 (arg_limit a) in
  if arg_senate a && bool_decide (is_Some (senate_scraper E))
     && bool_decide (is_Some (senate_llm E))
  then
    let* s_links := senate_scrape_links (arg_max_pages a) in
    if some_items s_links
    then
      let s_links :=
        List.filter
          (λ '(d, u, m), truthy d && negb (in_ids d existing_doc_ids)) s_links in
      let remaining := remaining limit all_transactions in
      let max_count := max_count (arg_house a) limit remaining in
      let* senate_transactions :=
        senate_links_to_transactions s_links (arg_headless a) max_count in
      ret (all_transactions ++ senate_transactions)
    else
      log INFO "No Senate links scraped." ;;;
      ret all_transactions
  else ret all_transactions.

Definition main (a : args) : M unit :=
  let* filings := main_scrape_house a in
  let* loaded :=
    try_except
      (invoke DbInit (supabase_init E) ;;;
       let* existing_doc_ids := invoke DbGetExistingDocIds (get_existing_doc_ids E) in
       ret (Some existing_doc_ids))
      (λ e, log ERROR ("Database initialization failed: " +:+ e) ;;; ret None) in
  match loaded with
  | None => ret tt
  | Some existing_doc_ids =>
      let* all_transactions := main_house a filings existing_doc_ids in
      let* all_transactions := main_senate a existing_doc_ids all_transactions in
      if negb (some_items all_transactions)
      then log INFO "No transactions extracted - exiting."
      else
        let* stats := persist_transactions all_transactions (arg_dry_run a) in
        log INFO ("Pipeline complete. Summary: " +:+ json_dumps E stats)
  end.

End with_env.

End daily_ptr_checker.

Import ptr_pdf_processor daily_ptr_checker.

(** * Vocabulary of the properties *)

(** ** The dedup filter *)

(** A filing is new when its [doc_id] is truthy and not a known identifier. *)
Definition is_new (existing_doc_ids : gset string) (f : gmap string value) : bool :=
  truthy (get f "doc_id") && negb (in_ids (get f "doc_id") existing_doc_ids).

(** ** The batch extractor *)

Section batch_vocabulary.
Context (P : value → value → M (gmap string (list (gmap string value)))).

(** The extraction call made for one filing. *)
Definition extraction (f : gmap string value)
  : M (gmap string (list (gmap string value))) :=
  P (get f "pdf_url") (get f "doc_id").

(** The rows of a processed filing, tagged with the filing's metadata. *)
Definition tagged_rows (f : gmap string value)
    (processed : gmap string (list (gmap string value))) : list (gmap string value) :=
  tagged (get f "doc_id") (get f "member_name") (get f "office") (get f "pdf_url")
    <$> default [] (processed !! "transactions").

(** What one filing adds to the output: its tagged rows, or nothing when
    its extraction raised. *)
Definition contribution (f : gmap string value) : list (gmap string value) :=
  match result (extraction f) with
  | Ok processed => tagged_rows f processed
  | Raised _ => []
  end.

(** The three kinds of line the batch extractor itself logs. *)
Definition processing_line (idx total : Z) (f : gmap string value) : event :=
  Log INFO ("[" +:+ pretty idx +:+ "/" +:+ pretty total
            +:+ "] Processing filing doc_id=" +:+ str (get f "doc_id")
            +:+ " member=" +:+ str (get f "member_name")).

Definition extracted_line (f : gmap string value)
    (processed : gmap string (list (gmap string value))) : event :=
  Log INFO ("doc_id=" +:+ str (get f "doc_id") +:+ ": extracted "
            +:+ pretty (len (default [] (processed !! "transactions")))
            +:+ " transaction(s)").

Definition failure_line (f : gmap string value) (e : string) : event :=
  Log ERROR ("Failed processing doc_id=" +:+ str (get f "doc_id") +:+ ": " +:+ e).

(** The trace of one iteration: the announcement, whatever the extraction
    wrote, and one closing line, which is the failure line exactly when the
    extraction raised. *)
Definition iteration_trace (idx total : Z) (f : gmap string value) : list event :=
  processing_line idx total f :: trace (extraction f)
  ++ [match result (extraction f) with
      | Ok processed => extracted_line f processed
      | Raised e => failure_line f e
      end].

Fixpoint batch_trace (idx total : Z) (filings : list (gmap string value)) : list event :=
  match filings with
  | [] => []
  | f :: rest => iteration_trace idx total f ++ batch_trace (idx + 1) total rest
  end.

End batch_vocabulary.

(** ** The normaliser *)

(** The twelve fields of a canonical transaction. *)
Definition canonical_fields : list string :=
  ["doc_id"; "member_name"; "office"; "pdf_url"; "ticker"; "asset_name";
   "transaction_type"; "transaction_date"; "amount_low"; "amount_high";
   "owner"; "comment"].

(** The canonical field and the field of the parsed row it is read from. *)
Definition field_sources : list (string * string) :=
  [("ticker", "ticker"); ("asset_name", "company_name");
   ("transaction_type", "transaction_type_full");
   ("transaction_date", "transaction_date_str");
   ("amount_low", "amount_low"); ("amount_high", "amount_high");
   ("owner", "owner_code"); ("comment", "raw_llm_line")].

(** The explicit value a canonical field takes when the parsed row lacks
    its source field: the empty string for the comment, [None] otherwise. *)
Definition missing_value (field : string) : value :=
  if decide (field = "comment") then VStr "" else VNone.

(** A record has the canonical shape for the parsed row [t] when its keys
    are exactly the twelve canonical fields and each mapped field holds the
    source value, or the explicit missing value when [t] lacks the source. *)
Definition canonical_for (t tx : gmap string value) : Prop :=
  dom tx = list_to_set canonical_fields
  ∧ Forall (λ '(field, source),
              tx !! field = Some (default (missing_value field) (t !! source)))
      field_sources.

(** A House record: a normalised row tagged with the metadata of a filing. *)
Definition house_record (filings : list (gmap string value)) (tx : gmap string value) : Prop :=
  ∃ f t, f ∈ filings
    ∧ tx = tagged (get f "doc_id") (get f "member_name") (get f "office") (get f "pdf_url")
             (normalized_row t).

(** A Senate record: the row built for one link and one parsed row. *)
Definition senate_record (links : list (value * value * value)) (tx : gmap string value)
  : Prop :=
  ∃ doc_id url member_name t, (doc_id, url, member_name) ∈ links
    ∧ tx = senate_row doc_id member_name url t.

(** ** The budget split *)

(** The calls of a trace that start the processing of one filing: the scan
    of a House PDF and the navigation to a Senate page. *)
Definition processing_starts (tr : list event) : list call :=
  omap (λ ev, match ev with
              | Call (HorScan u) => Some (HorScan u)
              | Call (DriverGet u) => Some (DriverGet u)
              | _ => None
              end) tr.

(** A link the Senate loop does not skip: [doc_id] and [url] are truthy. *)
Definition usable_link (link : value * value * value) : bool :=
  truthy link.1.1 && truthy link.1.2.

(** ** Concrete worlds and inputs *)

(** A filing-by-filing adapter for running the batch extractor on three
    filings: the filing "F2" raises, any other yields one row. *)
Definition demo_extract (pdf_url doc_id : value)
  : M (gmap string (list (gmap string value))) :=
  if decide (doc_id = VStr "F2")
  then invoke (HorScan pdf_url) (Raised "scan failed")
  else ret {["transactions" := [{["ticker" := doc_id]}]]}.

Definition demo_filing (doc_id : string) : gmap string value :=
  <["office" := VStr "House"]> (<["pdf_url" := VStr ("u/" +:+ doc_id)]>
    {["doc_id" := VStr doc_id]}).

Definition env_download_fails : ptr_pdf_processor.env :=
  {| hor_scan_with_openrouter := None;
     hor_parse_llm_transactions := None;
     requests_get := λ _, Raised "connection timed out";
     fitz_open := λ _, Ok [] |}.

Definition env_blank_text : ptr_pdf_processor.env :=
  {| hor_scan_with_openrouter := None;
     hor_parse_llm_transactions := None;
     requests_get := λ _, Ok {| raise_for_status := Ok tt; content := [] |};
     fitz_open := λ _, Ok [Ok "  "; Ok ""] |}.

(** A House filing and a Senate link with the given identifier. *)
Definition house_filing (doc_id : string) : gmap string value :=
  <["office" := VStr "House"]>
  (<["member_name" := VStr ("Rep. " +:+ doc_id)]>
  (<["pdf_url" := VStr ("house/" +:+ doc_id)]>
  {["doc_id" := VStr doc_id]})).

Definition senate_link (doc_id : string) : link_item :=
  ItemTuple [VStr doc_id; VStr ("senate/" +:+ doc_id); VStr ("Sen. " +:+ doc_id)].

(** A parsed row, as either HOR or Senate parser hands it over. *)
Definition parsed_row : gmap string value :=
  <["transaction_type_full" := VStr "Purchase"]> {["ticker" := VStr "ACME"]}.

(** A world in which every collaborator works: the House scraper finds
    [house], the scanner and parser yield [rows] rows for every House filing,
    the Senate scraper finds [senate] and every Senate page yields one row;
    nothing is known to the store yet. *)
Definition working_env (house : outcome (list (gmap string value))) (rows : nat)
    (senate : outcome (list link_item)) : daily_ptr_checker.env :=
  {| pdf_env :=
       {| hor_scan_with_openrouter := Some (λ _ _, Ok (VStr "csv"));
          hor_parse_llm_transactions := Some (λ _ _, Ok (replicate rows parsed_row));
          requests_get := λ _, Raised "offline";
          fitz_open := λ _, Ok [] |};
     house_scraper_init := λ _, Ok tt;
     scrape_ptr_filings := λ _ _, house;
     script_dir := "Scripts";
     save_json := λ _ _ _, Ok tt;
     json_dumps := λ _, "{...}";
     supabase_init := Ok tt;
     get_existing_doc_ids := Ok ∅;
     process_transactions_batch := λ _, Ok ∅;
     senate_scraper := Some senate;
     senate_llm :=
       Some {| call_llm_api_with_text := λ _ _, Ok (VStr "csv");
               parse_llm_transactions := λ _ _, Ok [parsed_row] |};
     chrome_start := λ _, Ok tt;
     verify_session := Ok tt;
     driver_get := λ _, Ok tt;
     extract_text_from_page := λ _, Ok "page text";
     driver_quit := Ok tt |}.

Definition dry_run_args (limit : Z) : args :=
  {| arg_year := 2025; arg_headless := true; arg_limit := limit; arg_max_pages := 0;
     arg_dry_run := true; arg_save_scrape_json := false;
     arg_house := true; arg_senate := true |}.

(** Ten House filings, each of which yields one record. *)
Definition ten_filings : list (gmap string value) :=
  house_filing <$> ["H0"; "H1"; "H2"; "H3"; "H4"; "H5"; "H6"; "H7"; "H8"; "H9"].

(** ** Vocabulary of the further properties *)

(** The filings a limit lets through: the first [limit] when it is
    positive, all of them otherwise. *)
Definition capped {A} (limit : Z) (l : list A) : list A :=
  if 0 <? limit then take (Z.to_nat limit) l else l.

(** The four metadata keys the batch extractor writes into every row. *)
Definition metadata_fields : list string := ["doc_id"; "member_name"; "office"; "pdf_url"].

(** The eight keys of a normalised row. *)
Definition normalized_fields : list string :=
  ["transaction_date"; "ticker"; "asset_name"; "transaction_type";
   "amount_low"; "amount_high"; "owner"; "comment"].

(** What one item of the Senate scraper is normalised to, if anything. *)
Definition normalized_item (item : link_item) : option (value * value * value) :=
  match item with
  | ItemTuple [doc_id; url; member_name] => Some (doc_id, url, member_name)
  | ItemDict d => Some (get d "doc_id", get d "url", get d "member_name")
  | _ => None
  end.

(** The rows one Senate link yields: those of its page, or none when its
    processing raised. *)
Definition link_rows (E : daily_ptr_checker.env) (llm : senate_llm_module)
    (link : value * value * value) : list (gmap string value) :=
  match result (senate_process_link E llm link.1.1 link.1.2 link.2 []) with
  | Ok rows => rows
  | Raised _ => []
  end.

(** The links a Senate quota lets through when [count] were visited
    before: the next [max_count - count] when the quota is positive, all of
    them otherwise. *)
Definition within_quota {A} (max_count count : Z) (l : list A) : list A :=
  if 0 <? max_count then take (Z.to_nat (max_count - count)) l else l.

(** A record whose [doc_id] is truthy and not a known identifier, and
    whose keys are the twelve canonical fields. *)
Definition fresh_record (existing_doc_ids : gset string) (tx : gmap string value) : Prop :=
  (∃ doc_id, tx !! "doc_id" = Some doc_id
     ∧ truthy doc_id = true ∧ in_ids doc_id existing_doc_ids = false)
  ∧ dom tx = list_to_set canonical_fields.

(** What the driver may do to the store: a batch write happens only
    outside dry-run mode, with a non-empty list of fresh records. *)
Definition write_contract (E : daily_ptr_checker.env) (a : args) (ev : event) : Prop :=
  match ev with
  | Call (DbProcessTransactionsBatch transactions) =>
      arg_dry_run a = false
      ∧ transactions ≠ []
      ∧ ∃ existing_doc_ids,
          get_existing_doc_ids E = Ok existing_doc_ids
          ∧ Forall (fresh_record existing_doc_ids) transactions
  | _ => True
  end.

(** Worlds and inputs for the further properties. *)

Definition env_three_pages : ptr_pdf_processor.env :=
  {| hor_scan_with_openrouter := None;
     hor_parse_llm_transactions := None;
     requests_get := λ _, Ok {| raise_for_status := Ok tt; content := [] |};
     fitz_open := λ pdf_bytes,
       match pdf_bytes with
       | [] => Ok [Ok "page one"; Ok ""; Ok "page three"]
       | [_] => Ok [Ok "page one"; Raised "damaged page"]
       | _ => Raised "not a PDF"
       end |}.

(** The Senate module of [working_env]. *)
Definition working_llm : senate_llm_module :=
  {| call_llm_api_with_text := λ _ _, Ok (VStr "csv");
     parse_llm_transactions := λ _ _, Ok [parsed_row] |}.

(** The working world, except that navigating to the page of "S2" times out
    and the session check may fail. *)
Definition flaky_env (session : outcome unit) : daily_ptr_checker.env :=
  let W := working_env (Ok []) 1 (Ok []) in
  {| pdf_env := pdf_env W;
     house_scraper_init := house_scraper_init W;
     scrape_ptr_filings := scrape_ptr_filings W;
     script_dir := script_dir W;
     save_json := save_json W;
     json_dumps := json_dumps W;
     supabase_init := supabase_init W;
     get_existing_doc_ids := get_existing_doc_ids W;
     process_transactions_batch := process_transactions_batch W;
     senate_scraper := senate_scraper W;
     senate_llm := Some working_llm;
     chrome_start := chrome_start W;
     verify_session := session;
     driver_get := λ url, if decide (url = VStr "senate/S2") then Raised "timeout" else Ok tt;
     extract_text_from_page := extract_text_from_page W;
     driver_quit := driver_quit W |}.

(** Four Senate links, the second without a [doc_id]. *)
Definition demo_links : list (value * value * value) :=
  [(VStr "S1", VStr "senate/S1", VStr "Sen. S1");
   (VNone, VStr "senate/S0", VStr "Sen. S0");
   (VStr "S2", VStr "senate/S2", VStr "Sen. S2");
   (VStr "S3", VStr "senate/S3", VStr "Sen. S3")].

(** Arguments of a run that writes to the store. *)
Definition live_args (limit : Z) : args :=
  {| arg_year := 2025; arg_headless := true; arg_limit := limit; arg_max_pages := 3;
     arg_dry_run := false; arg_save_scrape_json := true;
     arg_house := true; arg_senate := true |}.

(** The working world with a store that cannot be reached, or whose read of
    the known identifiers fails. *)
Definition storeless_env (init : outcome unit) : daily_ptr_checker.env :=
  let W := working_env (Ok [house_filing "H1"]) 1 (Ok [senate_link "S1"]) in
  {| pdf_env := pdf_env W;
     house_scraper_init := house_scraper_init W;
     scrape_ptr_filings := scrape_ptr_filings W;
     script_dir := script_dir W;
     save_json := save_json W;
     json_dumps := json_dumps W;
     supabase_init := init;
     get_existing_doc_ids := Raised "read refused";
     process_transactions_batch := process_transactions_batch W;
     senate_scraper := senate_scraper W;
     senate_llm := senate_llm W;
     chrome_start := chrome_start W;
     verify_session := verify_session W;
     driver_get := driver_get W;
     extract_text_from_page := extract_text_from_page W;
     driver_quit := driver_quit W |}.

(** The flaky world in which Chrome cannot be started. *)
Definition chromeless_env : daily_ptr_checker.env :=
  let W := flaky_env (Ok tt) in
  {| pdf_env := pdf_env W;
     house_scraper_init := house_scraper_init W;
     scrape_ptr_filings := scrape_ptr_filings W;
     script_dir := script_dir W;
     save_json := save_json W;
     json_dumps := json_dumps W;
     supabase_init := supabase_init W;
     get_existing_doc_ids := get_existing_doc_ids W;
     process_transactions_batch := process_transactions_batch W;
     senate_scraper := senate_scraper W;
     senate_llm := Some working_llm;
     chrome_start := λ _, Raised "chromedriver missing";
     verify_session := verify_session W;
     driver_get := driver_get W;
     extract_text_from_page := extract_text_from_page W;
     driver_quit := driver_quit W |}.

(** Four House filings, and seven Senate links. *)
Definition four_filings : list (gmap string value) :=
  house_filing <$> ["H1"; "H2"; "H3"; "H4"].

Definition seven_links : list link_item :=
  senate_link <$> ["S1"; "S2"; "S3"; "S4"; "S5"; "S6"; "S7"].

(** The no-break space U+00A0, in UTF-8. *)
Definition nbsp : string :=
  String (ascii_of_nat 194) (String (ascii_of_nat 160) EmptyString).

(** The flaky world in which the page of "S3" holds no-break spaces only. *)
Definition blank_page_env : daily_ptr_checker.env :=
  let W := flaky_env (Ok tt) in
  {| pdf_env := pdf_env W;
     house_scraper_init := house_scraper_init W;
     scrape_ptr_filings := scrape_ptr_filings W;
     script_dir := script_dir W;
     save_json := save_json W;
     json_dumps := json_dumps W;
     supabase_init := supabase_init W;
     get_existing_doc_ids := get_existing_doc_ids W;
     process_transactions_batch := process_transactions_batch W;
     senate_scraper := senate_scraper W;
     senate_llm := Some working_llm;
     chrome_start := chrome_start W;
     verify_session := verify_session W;
     driver_get := driver_get W;
     extract_text_from_page := λ doc_id,
       if decide (doc_id = VStr "S3") then Ok (nbsp +:+ nl +:+ nbsp) else Ok "page text";
     driver_quit := driver_quit W |}.

(** * Properties *)

(** ** The monad *)

Section monad_facts.
Context {A B : Type}.

Lemma result_bind_ok (m : M A) (k : A → M B) a :
  result m = Ok a → result (bind m k) = result (k a).
Proof.
  destruct m as [written r]. unfold result, bind. simpl. intros ->.
  by destruct (k a).
Qed.

Lemma trace_bind_ok (m : M A) (k : A → M B) a :
  result m = Ok a → trace (bind m k) = trace m ++ trace (k a).
Proof.
  destruct m as [written r]. unfold result, trace, bind. simpl. intros ->.
  by destruct (k a).
Qed.

Lemma result_bind_raised (m : M A) (k : A → M B) e :
  result m = Raised e → result (bind m k) = Raised e.
Proof. destruct m as [written r]. unfold result, bind. simpl. by intros ->. Qed.

Lemma trace_bind_raised (m : M A) (k : A → M B) e :
  result m = Raised e → trace (bind m k) = trace m.
Proof. destruct m as [written r]. unfold result, trace, bind. simpl. by intros ->. Qed.

Lemma result_try_except_ok (body : M A) handler a :
  result body = Ok a → result (try_except body handler) = Ok a.
Proof. destruct body as [written r]. unfold result, try_except. simpl. by intros ->. Qed.

Lemma result_try_except_raised (body : M A) handler e :
  result body = Raised e → result (try_except body handler) = result (handler e).
Proof.
  destruct body as [written r]. unfold result, try_except. simpl. intros ->.
  by destruct (handler e).
Qed.

Lemma trace_try_except_ok (body : M A) handler a :
  result body = Ok a → trace (try_except body handler) = trace body.
Proof. destruct body as [written r]. unfold result, trace, try_except. simpl. by intros ->. Qed.

Lemma trace_try_except_raised (body : M A) handler e :
  result body = Raised e →
  trace (try_except body handler) = trace body ++ trace (handler e).
Proof.
  destruct body as [written r]. unfold result, trace, try_except. simpl. intros ->.
  by destruct (handler e).
Qed.

Lemma result_try_finally_ok (body : M A) cleanup a :
  result (try_finally body cleanup) = Ok a → result body = Ok a.
Proof.
  destruct body as [written r], cleanup as [later [[]|e]];
    unfold result, try_finally; simpl; [done|discriminate].
Qed.

End monad_facts.

(** Case analysis on what a collaborator call at the head of the goal ends
    in: the run goes on with the value, or the goal, which assumes the run
    returned, is closed by the exception. *)
Ltac oracle_cases o :=
  let a := fresh "a" in
  let e := fresh "e" in
  destruct o as [a|e];
  [erewrite result_bind_ok by reflexivity
  |erewrite result_bind_raised by reflexivity; discriminate].

(** ** Stripping *)

(** [strip] removes white space beyond ASCII as well, and only at the two
    ends. *)
Lemma strip_unicode_space :
  strip (nbsp +:+ nl +:+ nbsp) = ""
  ∧ strip (nbsp +:+ " page" +:+ nbsp +:+ "text " +:+ nl) = "page" +:+ nbsp +:+ "text".
Proof. split; reflexivity. Qed.

(** ** The dedup filter *)

Lemma filter_new_loop_unlimited filings K limit acc :
  limit ≤ 0 →
  filter_new_loop filings K limit acc = acc ++ List.filter (is_new K) filings.
Proof.
  intros Hl. revert acc.
  induction filings as [|f rest IH]; intros acc; simpl.
  - by rewrite app_nil_r.
  - unfold is_new.
    destruct (truthy (get f "doc_id")); simpl; [|apply IH].
    destruct (in_ids (get f "doc_id") K); simpl; [apply IH|].
    replace (0 <? limit) with false by (symmetry; apply Z.ltb_ge; lia).
    simpl. rewrite IH. by rewrite <- app_assoc.
Qed.

Lemma filter_new_loop_bounded filings K limit acc :
  0 < limit → len acc < limit →
  len (filter_new_loop filings K limit acc) ≤ limit.
Proof.
  intros Hl. revert acc.
  induction filings as [|f rest IH]; intros acc Hacc; simpl.
  - lia.
  - destruct (truthy (get f "doc_id")); simpl; [|by apply IH].
    destruct (in_ids (get f "doc_id") K); simpl; [by apply IH|].
    assert (len (acc ++ [f]) = len acc + 1) as Hlen
      by (unfold len; rewrite length_app; simpl; lia).
    destruct (0 <? limit) eqn:H0; simpl.
    + destruct (limit <=? len (acc ++ [f])) eqn:H1.
      * apply Z.leb_le in H1. lia.
      * apply Z.leb_gt in H1. by apply IH.
    + apply Z.ltb_ge in H0. lia.
Qed.

Lemma filter_new_loop_truthy filings K limit acc :
  Forall (λ f, truthy (get f "doc_id") = true) acc →
  Forall (λ f, truthy (get f "doc_id") = true) (filter_new_loop filings K limit acc).
Proof.
  revert acc.
  induction filings as [|f rest IH]; intros acc Hacc; simpl; [done|].
  destruct (truthy (get f "doc_id")) eqn:Ht; simpl; [|by apply IH].
  destruct (in_ids (get f "doc_id") K); simpl; [by apply IH|].
  assert (Forall (λ f, truthy (get f "doc_id") = true) (acc ++ [f])) as Hacc'.
  { apply Forall_app. split; [done|]. by constructor. }
  destruct ((0 <? limit) && (limit <=? len (acc ++ [f]))); [done|by apply IH].
Qed.

Lemma result_filter_new_filings filings K limit :
  result (filter_new_filings filings K limit) = Ok (filter_new_loop filings K limit []).
Proof. reflexivity. Qed.

(** The filter neither invents nor repeats filings: its output is a
    sublist of its input. *)
Lemma filter_new_sublist filings K :
  sublist (List.filter (is_new K) filings) filings.
Proof.
  induction filings as [|f rest IH]; simpl; [constructor|].
  destruct (is_new K f); by constructor.
Qed.

(** C5, as amended. With limit 0 the dedup filter returns exactly the
    filings of F whose [doc_id] is truthy (present, not [None], not empty)
    and not a known identifier, in the order of F and each as often as F
    lists it: the output is a sublist of F, so it has no duplicates when F
    has none. *)
Theorem filter_new_unlimited_exact (F : list (gmap string value)) (K : gset string) :
  result (filter_new_filings F K 0) = Ok (List.filter (is_new K) F)
  ∧ sublist (List.filter (is_new K) F) F
  ∧ (NoDup F → NoDup (List.filter (is_new K) F)).
Proof.
  split; [|split].
  - rewrite result_filter_new_filings.
    by rewrite filter_new_loop_unlimited by lia.
  - apply filter_new_sublist.
  - intros Hnd. eapply sublist_NoDup; [done|apply filter_new_sublist].
Qed.

Lemma filter_new_unlimited_exact_witness :
  NoDup [({["doc_id" := VStr "A"]} : gmap string value); {["doc_id" := VStr ""]}]
  ∧ NoDup (List.filter (is_new ∅)
             [({["doc_id" := VStr "A"]} : gmap string value); {["doc_id" := VStr ""]}]).
Proof.
  assert (NoDup [({["doc_id" := VStr "A"]} : gmap string value); {["doc_id" := VStr ""]}])
    as Hnd.
  { apply NoDup_cons. split.
    - intros Hin. apply list_elem_of_singleton in Hin.
      assert (({["doc_id" := VStr "A"]} : gmap string value) !! "doc_id"
              = ({["doc_id" := VStr ""]} : gmap string value) !! "doc_id") as Heq
        by (by rewrite Hin).
      rewrite !lookup_singleton_eq in Heq. discriminate.
    - apply NoDup_singleton. }
  split; [exact Hnd|].
  exact (proj2 (proj2 (filter_new_unlimited_exact _ ∅)) Hnd).
Defined.

(** C5 as stated fails twice. A filing whose [doc_id] is the empty string
    is not a known identifier, yet the filter drops it; and a filing listed
    twice in F comes out twice. *)
Lemma filter_new_unlimited_counterexample :
  result (filter_new_filings [{["doc_id" := VStr ""]}] ∅ 0)
    ≠ Ok (List.filter (λ f, negb (in_ids (get f "doc_id") ∅)) [{["doc_id" := VStr ""]}])
  ∧ ∃ out,
      result (filter_new_filings [{["doc_id" := VStr "A"]}; {["doc_id" := VStr "A"]}] ∅ 0)
        = Ok out
      ∧ ¬ NoDup out.
Proof.
  split.
  - vm_compute. discriminate.
  - eexists. split; [reflexivity|].
    rewrite filter_new_loop_unlimited by lia. simpl.
    intros Hnd. apply NoDup_cons in Hnd as [Hnotin _].
    apply Hnotin. vm_compute. constructor.
Qed.

(** C7. For a positive limit L the dedup filter returns at most L
    filings; with limit 0 it returns every new filing of the input, however
    many there are. *)
Theorem filter_new_limit_respected (F : list (gmap string value)) (K : gset string) (L : Z) :
  (0 < L → ∃ out, result (filter_new_filings F K L) = Ok out ∧ len out ≤ L)
  ∧ result (filter_new_filings F K 0) = Ok (List.filter (is_new K) F).
Proof.
  split.
  - intros HL. eexists. split; [apply result_filter_new_filings|].
    apply filter_new_loop_bounded; [done|]. unfold len. simpl. lia.
  - rewrite result_filter_new_filings.
    by rewrite filter_new_loop_unlimited by lia.
Qed.

Lemma filter_new_limit_respected_witness :
  ∃ out,
    result (filter_new_filings
              [{["doc_id" := VStr "A"]}; {["doc_id" := VStr "B"]}; {["doc_id" := VStr "C"]}]
              ∅ 2) = Ok out
    ∧ len out ≤ 2.
Proof.
  apply (filter_new_limit_respected
           [{["doc_id" := VStr "A"]}; {["doc_id" := VStr "B"]}; {["doc_id" := VStr "C"]}]
           ∅ 2).
  lia.
Defined.

(** C8. Whatever the input, the known identifiers and the limit, every
    filing the dedup filter returns has a truthy [doc_id]: the key is
    present and its value is neither [None] nor the empty string. *)
Theorem filter_new_drops_falsy (F : list (gmap string value)) (K : gset string) (L : Z) :
  ∃ out,
    result (filter_new_filings F K L) = Ok out
    ∧ Forall (λ f, truthy (get f "doc_id") = true
                   ∧ f !! "doc_id" ≠ None
                   ∧ f !! "doc_id" ≠ Some VNone
                   ∧ f !! "doc_id" ≠ Some (VStr "")) out.
Proof.
  eexists. split; [apply result_filter_new_filings|].
  eapply Forall_impl; [apply filter_new_loop_truthy; constructor|].
  intros f Ht. unfold get in Ht. simpl in Ht.
  split; [done|].
  destruct (f !! "doc_id") as [[]|]; simpl in Ht; try discriminate;
    repeat split; try discriminate.
  intros [= ->]. discriminate.
Qed.

(** ** The batch extractor *)

Section batch_facts.
Context (P : value → value → M (gmap string (list (gmap string value)))).

Lemma or_empty_id {V} (d : gmap string V) : or_empty d = d.
Proof. unfold or_empty. by destruct (decide (d = ∅)) as [->|]. Qed.

Lemma tag_rows_app doc_id member_name office pdf_url transactions acc :
  tag_rows doc_id member_name office pdf_url transactions acc
  = acc ++ (tagged doc_id member_name office pdf_url <$> transactions).
Proof.
  revert acc. induction transactions as [|t rest IH]; intros acc; simpl.
  - by rewrite app_nil_r.
  - rewrite IH. by rewrite <- app_assoc.
Qed.

Lemma process_filings_loop_spec total idx filings acc :
  process_filings_loop P total idx filings acc
  = (batch_trace P idx total filings, Ok (acc ++ flat_map (contribution P) filings)).
Proof.
  revert idx acc. induction filings as [|f rest IH]; intros idx acc.
  - simpl. by rewrite app_nil_r.
  - cbn [process_filings_loop batch_trace flat_map].
    unfold contribution at 1, iteration_trace, extraction, tagged_rows.
    destruct (P (get f "pdf_url") (get f "doc_id")) as [tr [processed|e]] eqn:HP.
    + unfold bind, try_except, log, ret, result, trace. simpl.
      rewrite IH. simpl.
      rewrite or_empty_id, tag_rows_app.
      by rewrite <- !app_assoc.
    + unfold bind, try_except, log, ret, result, trace. simpl.
      rewrite IH. simpl.
      by rewrite ?app_nil_r, <- ?app_assoc.
Qed.

End batch_facts.

(** C3. The batch extractor catches the exception of a filing whose
    extraction raises, logs one failure line naming that filing's [doc_id],
    and goes on: it always returns, its output is the concatenation, in
    input order, of the tagged rows of the filings whose extraction
    returned, and its trace has for every filing one closing line, the
    failure line exactly when the extraction raised. For three filings of
    which the second raises, the output is the tagged rows of the first and
    the third, and the only failure line is the one for the second. *)
Theorem batch_failure_isolation
    (P : value → value → M (gmap string (list (gmap string value)))) :
  (∀ filings,
     result (process_filings_to_transactions P filings)
       = Ok (flat_map (contribution P) filings)
     ∧ trace (process_filings_to_transactions P filings)
       = batch_trace P 1 (len filings) filings)
  ∧ (∀ f1 f2 f3 p1 e p3,
       result (extraction P f1) = Ok p1 →
       result (extraction P f2) = Raised e →
       result (extraction P f3) = Ok p3 →
       result (process_filings_to_transactions P [f1; f2; f3])
         = Ok (tagged_rows f1 p1 ++ tagged_rows f3 p3)
       ∧ trace (process_filings_to_transactions P [f1; f2; f3])
         = [processing_line 1 3 f1] ++ trace (extraction P f1) ++ [extracted_line f1 p1]
           ++ [processing_line 2 3 f2] ++ trace (extraction P f2) ++ [failure_line f2 e]
           ++ [processing_line 3 3 f3] ++ trace (extraction P f3) ++ [extracted_line f3 p3]).
Proof.
  split.
  - intros filings. unfold process_filings_to_transactions.
    by rewrite process_filings_loop_spec.
  - intros f1 f2 f3 p1 e p3 H1 H2 H3.
    unfold process_filings_to_transactions.
    rewrite process_filings_loop_spec. unfold result at 1, trace at 1.
    cbn [flat_map batch_trace fst snd]. unfold contribution, iteration_trace.
    rewrite H1, H2, H3. split.
    + by rewrite !app_nil_l, app_nil_r.
    + cbn [len length Z.of_nat]. simpl. by rewrite <- ?app_assoc, ?app_nil_r.
Qed.

Lemma batch_failure_isolation_witness :
  result (process_filings_to_transactions demo_extract
            [demo_filing "F1"; demo_filing "F2"; demo_filing "F3"])
  = Ok (tagged_rows (demo_filing "F1") {["transactions" := [{["ticker" := VStr "F1"]}]]}
        ++ tagged_rows (demo_filing "F3") {["transactions" := [{["ticker" := VStr "F3"]}]]})
  ∧ trace (process_filings_to_transactions demo_extract
             [demo_filing "F1"; demo_filing "F2"; demo_filing "F3"])
  = [processing_line 1 3 (demo_filing "F1")]
    ++ trace (extraction demo_extract (demo_filing "F1"))
    ++ [extracted_line (demo_filing "F1") {["transactions" := [{["ticker" := VStr "F1"]}]]}]
    ++ [processing_line 2 3 (demo_filing "F2")]
    ++ trace (extraction demo_extract (demo_filing "F2"))
    ++ [failure_line (demo_filing "F2") "scan failed"]
    ++ [processing_line 3 3 (demo_filing "F3")]
    ++ trace (extraction demo_extract (demo_filing "F3"))
    ++ [extracted_line (demo_filing "F3") {["transactions" := [{["ticker" := VStr "F3"]}]]}].
Proof.
  apply (proj2 (batch_failure_isolation demo_extract)); vm_compute; reflexivity.
Defined.

(** ** The persistence step *)

(** C6. In dry-run mode, on a non-empty transaction list, the
    persistence step makes no collaborator call at all: it neither constructs
    the gateway nor invokes its batch write. It returns the summary
    [{"dry_run": True, "transactions": n}] with n the length of the list. *)
Theorem dry_run_skips_gateway (E : daily_ptr_checker.env)
    (first : gmap string value) (rest : list (gmap string value)) :
  let run := persist_transactions E (first :: rest) true in
  (∀ c, Call c ∉ trace run)
  ∧ ∃ summary,
      result run = Ok summary
      ∧ summary !! "dry_run" = Some (VBool true)
      ∧ summary !! "transactions" = Some (VInt (len (first :: rest)))
      ∧ dom summary = {["dry_run"; "transactions"]}.
Proof.
  simpl. split.
  - intros c Hin. unfold persist_transactions, bind, log, ret, trace in Hin.
    simpl in Hin.
    apply elem_of_cons in Hin as [?|Hin]; [discriminate|].
    apply elem_of_cons in Hin as [?|Hin]; [discriminate|].
    by apply elem_of_nil in Hin.
  - eexists. split; [reflexivity|]. split; [|split].
    + by rewrite lookup_insert_ne, lookup_singleton_eq.
    + by rewrite lookup_insert_eq.
    + rewrite dom_insert_L, dom_singleton_L. set_solver.
Qed.

(** ** The PDF processor *)

Section pdf_facts.
Context (E : ptr_pdf_processor.env).

Lemma try_except_returns {A} (body : M A) (handler : string → M A) :
  (∀ e, ∃ a, result (handler e) = Ok a) →
  ∃ a, result (try_except body handler) = Ok a.
Proof.
  intros Hh. destruct (result body) as [a|e] eqn:Hb.
  - exists a. by apply result_try_except_ok.
  - destruct (Hh e) as [a Ha]. exists a.
    by rewrite (result_try_except_raised _ _ e).
Qed.

Lemma extract_pdf_text_returns pdf_bytes :
  ∃ text, result (_extract_pdf_text E pdf_bytes) = Ok text.
Proof. apply try_except_returns. intros e. by eexists. Qed.

(** The download step of the fallback: [Some] bytes, or [None] after the
    error line. *)
Lemma fallback_download_returns pdf_url :
  (∃ pdf_bytes, result (_download E pdf_url) = Ok pdf_bytes)
  ∨ (∃ e, result (_download E pdf_url) = Raised e).
Proof. destruct (result (_download E pdf_url)); eauto. Qed.

Lemma process_ptr_pdf_fallback_result pdf_url :
  result (process_ptr_pdf_fallback E pdf_url) = Ok {["transactions" := []]}.
Proof.
  unfold process_ptr_pdf_fallback.
  destruct (fallback_download_returns pdf_url) as [[pdf_bytes Hd]|[e Hd]].
  - erewrite result_bind_ok; last first.
    { apply result_try_except_ok. erewrite result_bind_ok by exact Hd. reflexivity. }
    destruct (extract_pdf_text_returns pdf_bytes) as [text Ht].
    erewrite result_bind_ok by exact Ht.
    by destruct (negb (nonempty (strip text)) || _).
  - erewrite result_bind_ok; last first.
    { erewrite result_try_except_raised; [reflexivity|].
      by apply result_bind_raised. }
    reflexivity.
Qed.

Lemma normalize_transactions_shape llm_csv_text member_data :
  (∃ transactions, result (_normalize_transactions E llm_csv_text member_data) = Ok transactions)
  ∨ (∃ e, result (_normalize_transactions E llm_csv_text member_data) = Raised e).
Proof. destruct (result (_normalize_transactions E llm_csv_text member_data)); eauto. Qed.

Lemma process_ptr_pdf_scan_returns pdf_url doc_id :
  result (process_ptr_pdf_scan E pdf_url doc_id) = Ok None
  ∨ ∃ transactions,
      result (process_ptr_pdf_scan E pdf_url doc_id)
        = Ok (Some {["transactions" := transactions]})
      ∧ ∃ llm_csv,
          result (_normalize_transactions E llm_csv {["DocID" := doc_id]}) = Ok transactions.
Proof.
  unfold process_ptr_pdf_scan.
  destruct (hor_scan_with_openrouter E) as [scan|]; [|by left].
  destruct (hor_parse_llm_transactions E) as [parse|] eqn:Hparse; [|by left].
  destruct (scan pdf_url {["DocID" := doc_id]}) as [llm_csv|e] eqn:Hscan.
  - destruct (normalize_transactions_shape llm_csv {["DocID" := doc_id]})
      as [[transactions Hn]|[e Hn]].
    + right. exists transactions. split; [|by exists llm_csv].
      apply result_try_except_ok.
      erewrite result_bind_ok by reflexivity.
      by erewrite result_bind_ok by exact Hn.
    + left. erewrite result_try_except_raised; [reflexivity|].
      erewrite result_bind_ok by reflexivity.
      by apply result_bind_raised.
  - left. erewrite result_try_except_raised; [reflexivity|].
    by apply result_bind_raised.
Qed.

Lemma process_ptr_pdf_after_scan pdf_url doc_id scanned :
  result (process_ptr_pdf_scan E pdf_url doc_id) = Ok scanned →
  result (process_ptr_pdf E pdf_url doc_id)
  = match scanned with
    | Some processed => Ok processed
    | None => result (process_ptr_pdf_fallback E pdf_url)
    end.
Proof.
  intros Hs. unfold process_ptr_pdf.
  erewrite result_bind_ok by reflexivity.
  erewrite result_bind_ok by exact Hs.
  by destruct scanned.
Qed.

End pdf_facts.

(** C10. Whatever its collaborators do, [process_ptr_pdf] returns, and what
    it returns is a dict whose one key, "transactions", is bound to a list.
    When control reaches the fallback and the download raises, or the text
    extracted from the downloaded bytes is empty after stripping, that list
    is empty. *)
Theorem process_ptr_pdf_total (E : ptr_pdf_processor.env) (pdf_url doc_id : value) :
  (∃ transactions,
     result (process_ptr_pdf E pdf_url doc_id) = Ok {["transactions" := transactions]})
  ∧ (∀ e,
       result (process_ptr_pdf_scan E pdf_url doc_id) = Ok None →
       result (_download E pdf_url) = Raised e →
       result (process_ptr_pdf E pdf_url doc_id) = Ok {["transactions" := []]})
  ∧ (∀ pdf_bytes text,
       result (process_ptr_pdf_scan E pdf_url doc_id) = Ok None →
       result (_download E pdf_url) = Ok pdf_bytes →
       result (_extract_pdf_text E pdf_bytes) = Ok text →
       strip text = "" →
       result (process_ptr_pdf E pdf_url doc_id) = Ok {["transactions" := []]}).
Proof.
  split; [|split].
  - destruct (process_ptr_pdf_scan_returns E pdf_url doc_id)
      as [Hs|(transactions & Hs & _)].
    + exists []. rewrite (process_ptr_pdf_after_scan _ _ _ _ Hs).
      apply process_ptr_pdf_fallback_result.
    + exists transactions. by rewrite (process_ptr_pdf_after_scan _ _ _ _ Hs).
  - intros e Hs _. rewrite (process_ptr_pdf_after_scan _ _ _ _ Hs).
    apply process_ptr_pdf_fallback_result.
  - intros pdf_bytes text Hs _ _ _. rewrite (process_ptr_pdf_after_scan _ _ _ _ Hs).
    apply process_ptr_pdf_fallback_result.
Qed.

Lemma process_ptr_pdf_total_witness :
  result (process_ptr_pdf env_download_fails (VStr "u/1") (VStr "1"))
    = Ok {["transactions" := []]}
  ∧ result (process_ptr_pdf env_blank_text (VStr "u/2") (VStr "2"))
    = Ok {["transactions" := []]}.
Proof.
  split.
  - apply (proj1 (proj2 (process_ptr_pdf_total env_download_fails (VStr "u/1") (VStr "1")))
             "connection timed out"); reflexivity.
  - apply (proj2 (proj2 (process_ptr_pdf_total env_blank_text (VStr "u/2") (VStr "2")))
             [] "  "); reflexivity.
Defined.

(** ** The normaliser *)

Lemma house_record_canonical doc_id member_name office pdf_url t :
  canonical_for t (tagged doc_id member_name office pdf_url (normalized_row t)).
Proof.
  split.
  - unfold tagged, normalized_row, canonical_fields.
    rewrite !dom_insert_L, dom_empty_L. simpl. set_solver.
  - unfold field_sources, tagged, normalized_row, get, get_or.
    repeat (apply Forall_cons; split; [by simplify_map_eq|]).
    apply Forall_nil_2.
Qed.

Lemma senate_record_canonical doc_id member_name url t :
  canonical_for t (senate_row doc_id member_name url t).
Proof.
  split.
  - unfold senate_row, canonical_fields.
    rewrite !dom_insert_L, dom_empty_L. simpl. set_solver.
  - unfold field_sources, senate_row, get, get_or.
    repeat (apply Forall_cons; split; [by simplify_map_eq|]).
    apply Forall_nil_2.
Qed.

Lemma normalize_rows_app parsed acc :
  normalize_rows parsed acc = acc ++ (normalized_row <$> parsed).
Proof.
  revert acc. induction parsed as [|t rest IH]; intros acc; simpl.
  - by rewrite app_nil_r.
  - rewrite IH. by rewrite <- app_assoc.
Qed.

Lemma senate_rows_app doc_id member_name url parsed acc :
  senate_rows doc_id member_name url parsed acc
  = acc ++ (senate_row doc_id member_name url <$> parsed).
Proof.
  revert acc. induction parsed as [|t rest IH]; intros acc; simpl.
  - by rewrite app_nil_r.
  - rewrite IH. by rewrite <- app_assoc.
Qed.

Lemma normalize_transactions_rows (E : ptr_pdf_processor.env) llm_csv member_data txs :
  result (_normalize_transactions E llm_csv member_data) = Ok txs →
  ∃ parsed, txs = normalized_row <$> parsed.
Proof.
  unfold _normalize_transactions.
  destruct (hor_parse_llm_transactions E) as [parse|].
  - destruct (parse llm_csv member_data) as [parsed|e] eqn:Hp.
    + erewrite result_bind_ok by reflexivity.
      intros [= <-]. exists parsed. by rewrite normalize_rows_app.
    + erewrite result_bind_raised by reflexivity.
      discriminate.
  - intros [= <-]. by exists [].
Qed.

(** What [process_ptr_pdf] returns holds normalised rows only. *)
Lemma process_ptr_pdf_rows (E : ptr_pdf_processor.env) pdf_url doc_id :
  ∃ parsed,
    result (process_ptr_pdf E pdf_url doc_id)
    = Ok {["transactions" := normalized_row <$> parsed]}.
Proof.
  destruct (process_ptr_pdf_scan_returns E pdf_url doc_id)
    as [Hs|(transactions & Hs & llm_csv & Hn)].
  - exists []. rewrite (process_ptr_pdf_after_scan _ _ _ _ Hs).
    apply process_ptr_pdf_fallback_result.
  - destruct (normalize_transactions_rows _ _ _ _ Hn) as [parsed ->].
    exists parsed. by rewrite (process_ptr_pdf_after_scan _ _ _ _ Hs).
Qed.

Lemma house_contribution_records (E : ptr_pdf_processor.env) filings f :
  f ∈ filings →
  Forall (house_record filings) (contribution (process_ptr_pdf E) f).
Proof.
  intros Hf. unfold contribution, extraction.
  destruct (process_ptr_pdf_rows E (get f "pdf_url") (get f "doc_id")) as [parsed ->].
  unfold tagged_rows. rewrite lookup_singleton_eq. simpl.
  apply Forall_fmap, Forall_fmap, Forall_forall. intros t _.
  by exists f, t.
Qed.

Section senate_facts.
Context (E : daily_ptr_checker.env) (llm : senate_llm_module).

(** One iteration of the Senate loop returns, and adds rows of its own
    link only. *)
Lemma senate_iteration_records (Q : gmap string value → Prop) doc_id url member_name acc :
  (∀ t, Q (senate_row doc_id member_name url t)) →
  Forall Q acc →
  ∃ out,
    result (try_except
              (senate_process_link E llm doc_id url member_name acc)
              (λ e,
                 log ERROR ("Senate " +:+ str doc_id +:+ ": processing failed: " +:+ e) ;;;
                 ret acc)) = Ok out
    ∧ Forall Q out.
Proof.
  intros HQ Hacc.
  destruct (result (senate_process_link E llm doc_id url member_name acc)) as [out|e] eqn:Hr.
  - exists out. split; [by apply result_try_except_ok|].
    revert Hr. unfold senate_process_link.
    oracle_cases (driver_get E url).
    oracle_cases (extract_text_from_page E doc_id).
    destruct (negb (nonempty (strip a0))); [by intros [= <-]|].
    oracle_cases (call_llm_api_with_text llm a0
                    (<["URL" := url]> (<["Name" := member_name]> {["DocID" := doc_id]}))).
    oracle_cases (parse_llm_transactions llm (or_else a1 (VStr "")) {["DocID" := doc_id]}).
    intros [= <-]. rewrite senate_rows_app. apply Forall_app. split; [done|].
    apply Forall_fmap, Forall_forall. intros t _. apply HQ.
  - exists acc. split; [|done]. by rewrite (result_try_except_raised _ _ e).
Qed.

Lemma senate_links_loop_records all_links links max_count count acc :
  links ⊆ all_links →
  Forall (senate_record all_links) acc →
  ∃ out,
    result (senate_links_loop E llm links max_count count acc) = Ok out
    ∧ Forall (senate_record all_links) out.
Proof.
  revert count acc. induction links as [|[[doc_id url] member_name] rest IH];
    intros count acc Hsub Hacc.
  - by exists acc.
  - assert (rest ⊆ all_links) as Hrest by set_solver.
    cbn [senate_links_loop].
    destruct (negb (truthy doc_id) || negb (truthy url)); [by apply IH|].
    destruct ((0 <? max_count) && (max_count <=? count)); [by exists acc|].
    destruct (senate_iteration_records (senate_record all_links)
                doc_id url member_name acc) as (mid & Hmid & HQ); [|done|].
    { intros t. exists doc_id, url, member_name, t. split; [set_solver|done]. }
    erewrite result_bind_ok by exact Hmid. by apply IH.
Qed.

Lemma senate_links_to_transactions_records links headless max_count out :
  senate_llm E = Some llm →
  result (senate_links_to_transactions E links headless max_count) = Ok out →
  Forall (senate_record links) out.
Proof.
  intros Hllm. unfold senate_links_to_transactions. rewrite Hllm.
  oracle_cases (chrome_start E headless).
  intros Hout. apply result_try_finally_ok in Hout.
  destruct (verify_session E) as [[]|e] eqn:Hv;
    [erewrite result_bind_ok in Hout by reflexivity
    |erewrite result_bind_raised in Hout by reflexivity; discriminate].
  destruct (senate_links_loop_records links links max_count 0 [])
    as (out' & Hout' & HQ); [done|constructor|].
  rewrite Hout' in Hout. by injection Hout as <-.
Qed.

End senate_facts.

(** C9. Every record either source path produces has exactly the twelve
    canonical fields as its keys, and each field mapped from the parsed row
    holds the source value, or an explicit missing value ([None], the empty
    string for the comment) when the row lacks it. The House path, normalising
    and then tagging with the filing's metadata, always returns; the Senate
    path is covered whenever it returns. *)
Theorem canonical_fields_complete (E : daily_ptr_checker.env) :
  (∀ filings,
     ∃ out,
       result (process_filings_to_transactions (process_ptr_pdf (pdf_env E)) filings) = Ok out
       ∧ Forall (λ tx, house_record filings tx ∧ ∃ t, canonical_for t tx) out)
  ∧ (∀ links headless max_count out,
       result (senate_links_to_transactions E links headless max_count) = Ok out →
       Forall (λ tx, senate_record links tx ∧ ∃ t, canonical_for t tx) out).
Proof.
  split.
  - intros filings. eexists. split.
    { unfold process_filings_to_transactions. by rewrite process_filings_loop_spec. }
    assert (Forall (house_record filings)
              (flat_map (contribution (process_ptr_pdf (pdf_env E))) filings)) as Hrec.
    { apply Forall_flat_map, Forall_forall. intros f Hf.
      by apply house_contribution_records. }
    eapply Forall_impl; [exact Hrec|].
    intros tx Htx. split; [done|].
    destruct Htx as (f & t & _ & ->). exists t. apply house_record_canonical.
  - intros links headless max_count out Hout.
    assert (Forall (senate_record links) out) as Hrec.
    { destruct (senate_llm E) as [llm|] eqn:Hllm.
      - by eapply senate_links_to_transactions_records.
      - unfold senate_links_to_transactions in Hout. rewrite Hllm in Hout.
        injection Hout as <-. constructor. }
    eapply Forall_impl; [exact Hrec|].
    intros tx Htx. split; [done|].
    destruct Htx as (d & u & m & t & _ & ->). exists t. apply senate_record_canonical.
Qed.

Lemma canonical_fields_complete_witness :
  Forall (λ tx, senate_record [(VStr "S1", VStr "senate/S1", VStr "Sen. S1")] tx
                ∧ ∃ t, canonical_for t tx)
    [senate_row (VStr "S1") (VStr "Sen. S1") (VStr "senate/S1") parsed_row].
Proof.
  apply (proj2 (canonical_fields_complete (working_env (Ok []) 1 (Ok [])))
           [(VStr "S1", VStr "senate/S1", VStr "Sen. S1")] true 0).
  vm_compute. reflexivity.
Defined.

(** ** The budget split *)

Lemma processing_starts_app tr1 tr2 :
  processing_starts (tr1 ++ tr2) = processing_starts tr1 ++ processing_starts tr2.
Proof. apply omap_app. Qed.

Section quota_facts.
Context (E : daily_ptr_checker.env) (llm : senate_llm_module).

(** Each iteration that is not skipped navigates to its link once. *)
Lemma senate_iteration_starts doc_id url member_name acc :
  processing_starts
    (trace (try_except
              (senate_process_link E llm doc_id url member_name acc)
              (λ e,
                 log ERROR ("Senate " +:+ str doc_id +:+ ": processing failed: " +:+ e) ;;;
                 ret acc)))
  = [DriverGet url].
Proof.
  unfold senate_process_link, try_except, bind, invoke, log, ret, trace. simpl.
  destruct (driver_get E url) as [[]|]; simpl; [|done].
  destruct (extract_text_from_page E doc_id) as [text|]; simpl; [|done].
  destruct (negb (nonempty (strip text))); simpl; [done|].
  destruct (call_llm_api_with_text llm text _) as [csv_text|]; simpl; [|done].
  by destruct (parse_llm_transactions llm _ _).
Qed.

(** A quota of zero, or less, is no cap: the loop visits every usable link. *)
Lemma senate_links_loop_unlimited links max_count count acc :
  max_count ≤ 0 →
  processing_starts (trace (senate_links_loop E llm links max_count count acc))
  = (λ link, DriverGet link.1.2) <$> List.filter usable_link links.
Proof.
  intros Hm. revert count acc.
  induction links as [|[[doc_id url] member_name] rest IH]; intros count acc; [done|].
  cbn [senate_links_loop List.filter]. unfold usable_link at 1. cbn [fst snd].
  destruct (truthy doc_id); [|apply IH].
  destruct (truthy url); [|apply IH]. cbn [negb orb andb].
  replace (0 <? max_count) with false by (symmetry; apply Z.ltb_ge; lia).
  cbn [andb].
  destruct (senate_iteration_records E llm (λ _, True) doc_id url member_name acc)
    as (mid & Hmid & _); [done|by apply Forall_true|].
  erewrite trace_bind_ok by exact Hmid.
  rewrite processing_starts_app, senate_iteration_starts, IH. done.
Qed.

End quota_facts.

(** When the House stage is enabled and the remainder is zero, the
    quota handed to the Senate stage is the full limit again. *)
Lemma max_count_exhausted (L : Z) (all_transactions : list (gmap string value)) :
  0 < L → L ≤ len all_transactions →
  max_count true L (remaining L all_transactions) = L.
Proof.
  intros HL Hk. unfold remaining, max_count.
  replace (0 <? L) with true by (symmetry; apply Z.ltb_lt; lia).
  by rewrite Z.max_l by lia.
Qed.

(** The quota in terms of the number r of records the combined list holds
    when the Senate stage starts. For a positive limit L and the House stage
    enabled it is L - r while r < L. With the House stage disabled it is the
    full L. For L <= 0 it is 0, and under a quota of 0 the Senate loop visits
    every usable link. *)
Lemma quota_by_records (L r : Z) (all_transactions : list (gmap string value)) :
  let limit := Z.max 0 L in
  (0 < L → len all_transactions = r → r < L →
     max_count true limit (remaining limit all_transactions) = L - r)
  ∧ (0 < L → max_count false limit (remaining limit all_transactions) = L)
  ∧ (L ≤ 0 →
     ∀ include_house,
       max_count include_house limit (remaining limit all_transactions) = 0
       ∧ ∀ E llm links,
           processing_starts (trace (senate_links_loop E llm links 0 0 []))
           = (λ link, DriverGet link.1.2) <$> List.filter usable_link links).
Proof.
  simpl. split; [|split].
  - intros HL Hr HrL. rewrite Z.max_r by lia. unfold remaining, max_count.
    replace (0 <? L) with true by (symmetry; apply Z.ltb_lt; lia).
    rewrite Hr. simpl. rewrite Z.max_r by lia.
    by replace (0 <? L - r) with true by (symmetry; apply Z.ltb_lt; lia).
  - intros HL. rewrite Z.max_r by lia. unfold max_count. simpl.
    by replace (0 <? L) with true by (symmetry; apply Z.ltb_lt; lia).
  - intros HL include_house. rewrite Z.max_l by lia. split.
    + unfold remaining, max_count. simpl. by rewrite andb_false_r.
    + intros E llm links. by apply senate_links_loop_unlimited.
Qed.

(** C2 fails on the code. With limit 10 and four new House filings of two
    records each, the combined list holds eight records, so the quota computed
    for the Senate stage is 2 where max(0, L - k) is 6, and a run with seven
    Senate links visits two of them. With limit 10 and ten new House filings
    of one record each the remainder is 0 and the quota is the full 10 where
    max(0, L - k) is 0. *)
Lemma senate_quota_diverges :
  match result (filter_new_filings four_filings ∅ 10),
        result (main_house (working_env (Ok four_filings) 2 (Ok seven_links))
                  (dry_run_args 10) four_filings ∅) with
  | Ok new_filings, Ok all_transactions =>
      len new_filings = 4
      ∧ len all_transactions = 8
      ∧ max_count true (Z.max 0 10) (remaining (Z.max 0 10) all_transactions) = 2
      ∧ Z.max 0 (10 - len new_filings) = 6
  | _, _ => False
  end
  ∧ processing_starts
      (trace (main (working_env (Ok four_filings) 2 (Ok seven_links)) (dry_run_args 10)))
    = [HorScan (VStr "house/H1"); HorScan (VStr "house/H2"); HorScan (VStr "house/H3");
       HorScan (VStr "house/H4"); DriverGet (VStr "senate/S1"); DriverGet (VStr "senate/S2")]
  ∧ match result (filter_new_filings ten_filings ∅ 10),
          result (main_house (working_env (Ok ten_filings) 1 (Ok seven_links))
                    (dry_run_args 10) ten_filings ∅) with
    | Ok new_filings, Ok all_transactions =>
        len new_filings = 10
        ∧ len all_transactions = 10
        ∧ max_count true (Z.max 0 10) (remaining (Z.max 0 10) all_transactions) = 10
        ∧ Z.max 0 (10 - len new_filings) = 0
    | _, _ => False
    end.
Proof. vm_compute. repeat split. Qed.

(** C1 fails on the code. With limit 2, one new House filing that yields no
    transaction leaves the combined list empty, so the Senate stage is handed
    the full quota of 2 and three filings are processed in the run. *)
Lemma budget_overrun :
  let run :=
    main (working_env (Ok [house_filing "H1"]) 0
            (Ok [senate_link "S1"; senate_link "S2"; senate_link "S3"]))
      (dry_run_args 2) in
  result run = Ok tt
  ∧ processing_starts (trace run)
    = [HorScan (VStr "house/H1"); DriverGet (VStr "senate/S1"); DriverGet (VStr "senate/S2")]
  ∧ 2 < len (processing_starts (trace run)).
Proof. vm_compute. repeat split; reflexivity. Qed.

(** The same run with limit 1 and one transaction for the House filing: the
    remainder is 0, the quota is the full limit, two filings are processed. *)
Lemma budget_overrun_exhausted :
  let run :=
    main (working_env (Ok [house_filing "H1"]) 1
            (Ok [senate_link "S1"; senate_link "S2"; senate_link "S3"]))
      (dry_run_args 1) in
  result run = Ok tt
  ∧ processing_starts (trace run)
    = [HorScan (VStr "house/H1"); DriverGet (VStr "senate/S1")].
Proof. vm_compute. split; reflexivity. Qed.

(** A failure of the Senate scraper never leaves [senate_scrape_links]: it
    is logged and the stage has no links. *)
Lemma senate_scrape_links_degrades (E : daily_ptr_checker.env) max_pages e :
  senate_scraper E = Some (Raised e) →
  senate_scrape_links E max_pages
  = ([Call SenateScrapeAllPtrLinks; Log ERROR ("Senate scraping failed: " +:+ e)], Ok []).
Proof. intros Hs. unfold senate_scrape_links. by rewrite Hs. Qed.

(** A failure of the House scraper leaves [scrape_ptrs], and [main] with
    it. *)
Lemma main_propagates_house_scrape_failure (E : daily_ptr_checker.env) (a : args) e :
  arg_house a = true →
  house_scraper_init E (arg_headless a) = Ok tt →
  scrape_ptr_filings E (arg_year a)
    (if arg_max_pages a <=? 0 then None else Some (arg_max_pages a)) = Raised e →
  result (main E a) = Raised e.
Proof.
  intros Hh Hi Hs. unfold main. apply result_bind_raised.
  unfold main_scrape_house. rewrite Hh. apply result_bind_raised.
  unfold scrape_ptrs. erewrite result_bind_ok by reflexivity.
  erewrite result_bind_ok by (unfold invoke, result; simpl; exact Hi).
  apply result_bind_raised. unfold invoke, result. simpl. exact Hs.
Qed.

(** C4 fails on the code for the House. [scrape_ptrs] has no handler, so an
    exception of the House scraper ends the run before the store is read or
    the Senate is scraped; the same exception in the Senate scraper is caught
    by [senate_scrape_links], logged, and the run goes on to persist the
    House transactions. *)
Lemma house_scrape_failure_aborts :
  (let run :=
     main (working_env (Raised "site down") 1 (Ok [senate_link "S1"])) (dry_run_args 2) in
   result run = Raised "site down"
   ∧ trace run
     = [Log INFO "Starting scrape for year=2025, headless=True, max_pages=ALL";
        Call (HouseScraperInit true);
        Call (HouseScrapePtrFilings 2025 None)])
  ∧ (let run :=
       main (working_env (Ok [house_filing "H1"]) 1 (Raised "site down")) (dry_run_args 2) in
     result run = Ok tt
     ∧ Log ERROR "Senate scraping failed: site down" ∈ trace run
     ∧ processing_starts (trace run) = [HorScan (VStr "house/H1")]
     ∧ last (trace run) = Some (Log INFO "Pipeline complete. Summary: {...}")).
Proof.
  split.
  - vm_compute. split; reflexivity.
  - split; [vm_compute; reflexivity|]. split; [|split; vm_compute; reflexivity].
    apply list_elem_of_lookup. exists 13%nat. vm_compute. reflexivity.
Qed.

(** * Further properties *)

(** ** The dedup filter under a limit *)

Lemma filter_new_loop_take filings K limit acc :
  0 < limit → len acc < limit →
  filter_new_loop filings K limit acc
  = acc ++ take (Z.to_nat (limit - len acc)) (List.filter (is_new K) filings).
Proof.
  intros Hl. revert acc.
  induction filings as [|f rest IH]; intros acc Hacc; simpl.
  - by rewrite take_nil, app_nil_r.
  - unfold is_new at 1.
    destruct (truthy (get f "doc_id")); simpl; [|by apply IH].
    destruct (in_ids (get f "doc_id") K); simpl; [by apply IH|].
    assert (len (acc ++ [f]) = len acc + 1) as Hlen
      by (unfold len; rewrite length_app; simpl; lia).
    replace (0 <? limit) with true by (symmetry; apply Z.ltb_lt; lia).
    replace (Z.to_nat (limit - len acc))
      with (S (Z.to_nat (limit - len (acc ++ [f])))) by lia.
    simpl. destruct (limit <=? len (acc ++ [f])) eqn:Hfull.
    + apply Z.leb_le in Hfull.
      replace (Z.to_nat (limit - len (acc ++ [f]))) with 0%nat by lia.
      by rewrite take_0.
    + apply Z.leb_gt in Hfull. rewrite IH by done. by rewrite <- app_assoc.
Qed.

Lemma filter_new_loop_capped filings K limit :
  filter_new_loop filings K limit [] = capped limit (List.filter (is_new K) filings).
Proof.
  unfold capped. destruct (0 <? limit) eqn:Hl.
  - apply Z.ltb_lt in Hl. rewrite filter_new_loop_take by (unfold len; simpl; lia).
    unfold len. simpl. by rewrite Z.sub_0_r.
  - apply Z.ltb_ge in Hl. by rewrite filter_new_loop_unlimited.
Qed.

Lemma filter_is_new_fixpoint K (l : list (gmap string value)) :
  Forall (λ f, is_new K f = true) l → List.filter (is_new K) l = l.
Proof.
  induction 1 as [|f l Hf _ IH]; simpl; [done|]. by rewrite Hf, IH.
Qed.

Lemma filter_is_new_all K (l : list (gmap string value)) :
  Forall (λ f, is_new K f = true) (List.filter (is_new K) l).
Proof.
  induction l as [|f l IH]; simpl; [constructor|].
  destruct (is_new K f) eqn:Hf; [by constructor|done].
Qed.

Lemma capped_all {A} (Q : A → Prop) limit (l : list A) :
  Forall Q l → Forall Q (capped limit l).
Proof. unfold capped. destruct (0 <? limit); [apply Forall_take|done]. Qed.

Lemma capped_sublist {A} limit (l : list A) : sublist (capped limit l) l.
Proof. unfold capped. destruct (0 <? limit); [apply sublist_take|done]. Qed.

(** X1. Under any limit the dedup filter returns the new filings of its
    input in input order, cut to the first [limit] of them when the limit is
    positive: nothing is reordered, invented or repeated, and a filing with
    a known or falsy [doc_id] is never returned. *)
Theorem filter_new_first_new (F : list (gmap string value)) (K : gset string) (L : Z) :
  result (filter_new_filings F K L) = Ok (capped L (List.filter (is_new K) F))
  ∧ sublist (capped L (List.filter (is_new K) F)) F
  ∧ Forall (λ f, is_new K f = true) (capped L (List.filter (is_new K) F)).
Proof.
  split; [|split].
  - by rewrite result_filter_new_filings, filter_new_loop_capped.
  - etrans; [apply capped_sublist|apply filter_new_sublist].
  - apply capped_all, filter_is_new_all.
Qed.

(** X2. Filtering is idempotent: running the dedup filter again on its own
    output, with the same known identifiers and limit, returns that
    output. *)
Theorem filter_new_idempotent (F out : list (gmap string value)) (K : gset string) (L : Z) :
  result (filter_new_filings F K L) = Ok out →
  result (filter_new_filings out K L) = Ok out.
Proof.
  rewrite !result_filter_new_filings, !filter_new_loop_capped. intros [= <-].
  f_equal. rewrite filter_is_new_fixpoint by apply capped_all, filter_is_new_all.
  unfold capped. destruct (0 <? L); [|done].
  rewrite take_take. f_equal. lia.
Qed.

Lemma filter_new_idempotent_witness :
  result (filter_new_filings
            [house_filing "H1"; {["doc_id" := VNone]}; house_filing "H3"]
            {["H0"]} 1) = Ok [house_filing "H1"]
  ∧ result (filter_new_filings [house_filing "H1"] {["H0"]} 1) = Ok [house_filing "H1"].
Proof.
  assert (result (filter_new_filings
                    [house_filing "H1"; {["doc_id" := VNone]}; house_filing "H3"]
                    {["H0"]} 1) = Ok [house_filing "H1"]) as Hrun
    by (vm_compute; reflexivity).
  split; [exact Hrun|].
  exact (filter_new_idempotent _ _ _ _ Hrun).
Defined.

(** ** The batch extractor's metadata *)

Lemma tagged_metadata doc_id member_name office pdf_url t :
  tagged doc_id member_name office pdf_url t !! "doc_id" = Some doc_id
  ∧ tagged doc_id member_name office pdf_url t !! "member_name" = Some member_name
  ∧ tagged doc_id member_name office pdf_url t !! "office" = Some office
  ∧ tagged doc_id member_name office pdf_url t !! "pdf_url" = Some pdf_url.
Proof. unfold tagged. repeat split; by simplify_map_eq. Qed.

Lemma tagged_other doc_id member_name office pdf_url t k :
  k ∉ metadata_fields →
  tagged doc_id member_name office pdf_url t !! k = t !! k.
Proof.
  unfold metadata_fields, tagged. intros Hk.
  rewrite !lookup_insert_ne; [done|..]; intros <-; apply Hk; set_solver.
Qed.

(** X3. Whatever the extraction adapter returns, every row of the batch
    extractor's output carries the [doc_id], [member_name], [office] and
    [pdf_url] of one of the input filings, overwriting what the adapter's row
    held under these keys, and keeps every other key of the adapter's row
    unchanged. *)
Theorem batch_rows_carry_filing_metadata
    (P : value → value → M (gmap string (list (gmap string value))))
    (filings : list (gmap string value)) :
  ∃ out,
    result (process_filings_to_transactions P filings) = Ok out
    ∧ Forall (λ tx, ∃ f processed t,
                f ∈ filings
                ∧ result (extraction P f) = Ok processed
                ∧ t ∈ default [] (processed !! "transactions")
                ∧ tx !! "doc_id" = Some (get f "doc_id")
                ∧ tx !! "member_name" = Some (get f "member_name")
                ∧ tx !! "office" = Some (get f "office")
                ∧ tx !! "pdf_url" = Some (get f "pdf_url")
                ∧ ∀ k, k ∉ metadata_fields → tx !! k = t !! k) out.
Proof.
  eexists. split.
  { unfold process_filings_to_transactions. by rewrite process_filings_loop_spec. }
  apply Forall_flat_map, Forall_forall. intros f Hf.
  unfold contribution.
  destruct (result (extraction P f)) as [processed|e] eqn:Hr; [|constructor].
  unfold tagged_rows. apply Forall_fmap, Forall_forall. intros t Ht.
  exists f, processed, t. simpl.
  destruct (tagged_metadata (get f "doc_id") (get f "member_name") (get f "office")
              (get f "pdf_url") t) as (H1 & H2 & H3 & H4).
  repeat (split; [done|]). intros k Hk. by apply tagged_other.
Qed.

(** ** The Senate scrape *)

Lemma normalize_links_app links acc :
  normalize_links links acc = acc ++ omap normalized_item links.
Proof.
  revert acc. induction links as [|item rest IH]; intros acc.
  - simpl. by rewrite app_nil_r.
  - destruct item as [fields|d|].
    + destruct fields as [|doc_id [|url [|member_name [|extra more]]]];
        cbn [normalize_links omap list_omap normalized_item]; rewrite IH; try done.
      by rewrite <- app_assoc.
    + cbn [normalize_links omap list_omap normalized_item]. rewrite IH.
      by rewrite <- app_assoc.
    + cbn [normalize_links omap list_omap normalized_item]. by rewrite IH.
Qed.

(** X4. [senate_scrape_links] never raises. When the Senate scraper is
    missing it returns no links without calling anything; when the scraper
    raises it logs the failure and returns no links; when the scraper returns,
    the links are its three-element tuples and its dicts, in order, a dict
    read through its "doc_id", "url" and "member_name" keys, and any other
    item is dropped. *)
Theorem senate_scrape_links_total (E : daily_ptr_checker.env) (max_pages : Z) :
  match senate_scraper E with
  | None =>
      result (senate_scrape_links E max_pages) = Ok []
      ∧ ∀ c, Call c ∉ trace (senate_scrape_links E max_pages)
  | Some (Raised e) =>
      result (senate_scrape_links E max_pages) = Ok []
      ∧ trace (senate_scrape_links E max_pages)
        = [Call SenateScrapeAllPtrLinks; Log ERROR ("Senate scraping failed: " +:+ e)]
  | Some (Ok links) =>
      result (senate_scrape_links E max_pages) = Ok (omap normalized_item links)
      ∧ trace (senate_scrape_links E max_pages) = [Call SenateScrapeAllPtrLinks]
  end.
Proof.
  unfold senate_scrape_links.
  destruct (senate_scraper E) as [[links|e]|].
  - split; [|done]. unfold result, try_except, bind, invoke, ret. simpl.
    by rewrite normalize_links_app.
  - by split.
  - split; [done|]. intros c Hin.
    apply elem_of_cons in Hin as [?|Hin]; [discriminate|].
    by apply elem_of_nil in Hin.
Qed.

(** ** Local text extraction *)

Section extract_facts.
Context (E : ptr_pdf_processor.env).

Lemma extract_pages_all_ok i texts acc :
  extract_pages i (Ok <$> texts) acc
  = (Call ∘ PageGetText <$> seq i (length texts), Ok (acc ++ List.filter nonempty texts)).
Proof.
  revert i acc. induction texts as [|t rest IH]; intros i acc.
  - simpl. by rewrite app_nil_r.
  - cbn [fmap list_fmap extract_pages length seq List.filter].
    unfold bind, invoke. simpl.
    destruct (nonempty t); rewrite IH; [|done].
    by rewrite <- app_assoc.
Qed.

Lemma extract_pages_failure i doc acc e :
  Raised e ∈ doc → ∃ e', result (extract_pages i doc acc) = Raised e'.
Proof.
  revert i acc. induction doc as [|page rest IH]; intros i acc Hin.
  - by apply elem_of_nil in Hin.
  - cbn [extract_pages]. destruct page as [t|e0].
    + apply elem_of_cons in Hin as [?|Hin]; [discriminate|].
      erewrite result_bind_ok by reflexivity.
      destruct (nonempty t); by apply IH.
    + exists e0. by apply result_bind_raised.
Qed.

End extract_facts.

(** X5. [_extract_pdf_text] never raises. When every page yields its text,
    the result is the non-empty page texts joined by newlines, in page order.
    When opening the document or reading any one page raises, the result is
    the empty string, whatever the other pages held, and an error is
    logged. *)
Theorem extract_pdf_text_all_or_nothing (E : ptr_pdf_processor.env)
    (pdf_bytes : list Byte.byte) :
  (∀ texts,
     fitz_open E pdf_bytes = Ok (Ok <$> texts) →
     result (_extract_pdf_text E pdf_bytes) = Ok (join nl (List.filter nonempty texts)))
  ∧ (∀ doc e,
       fitz_open E pdf_bytes = Ok doc → Raised e ∈ doc →
       result (_extract_pdf_text E pdf_bytes) = Ok ""
       ∧ ∃ e', last (trace (_extract_pdf_text E pdf_bytes))
               = Some (Log ERROR ("PDF text extraction failed: " +:+ e')))
  ∧ (∀ e,
       fitz_open E pdf_bytes = Raised e →
       _extract_pdf_text E pdf_bytes
       = ([Call (FitzOpen pdf_bytes); Log ERROR ("PDF text extraction failed: " +:+ e)],
          Ok "")).
Proof.
  split; [|split].
  - intros texts Hopen. unfold _extract_pdf_text.
    apply result_try_except_ok.
    erewrite result_bind_ok by (unfold invoke, result; simpl; exact Hopen).
    erewrite result_bind_ok; [reflexivity|].
    by rewrite extract_pages_all_ok.
  - intros doc e Hopen Hin. unfold _extract_pdf_text.
    destruct (extract_pages_failure 0 doc [] e Hin) as [e' He'].
    assert (result (bind (invoke (FitzOpen pdf_bytes) (fitz_open E pdf_bytes))
                      (λ doc, bind (extract_pages 0 doc [])
                                (λ text, ret (join nl text)))) = Raised e') as Hbody.
    { erewrite result_bind_ok by (unfold invoke, result; simpl; exact Hopen).
      by apply result_bind_raised. }
    split.
    + by rewrite (result_try_except_raised _ _ e').
    + exists e'. rewrite (trace_try_except_raised _ _ e') by done.
      by rewrite last_app.
  - intros e Hopen. unfold _extract_pdf_text, try_except, bind, invoke, log, ret.
    simpl. by rewrite Hopen.
Qed.

Lemma extract_pdf_text_all_or_nothing_witness :
  result (_extract_pdf_text env_three_pages [])
    = Ok (join nl (List.filter nonempty ["page one"; ""; "page three"]))
  ∧ (result (_extract_pdf_text env_three_pages [Byte.x00]) = Ok ""
     ∧ ∃ e', last (trace (_extract_pdf_text env_three_pages [Byte.x00]))
             = Some (Log ERROR ("PDF text extraction failed: " +:+ e')))
  ∧ _extract_pdf_text env_three_pages [Byte.x00; Byte.x00]
    = ([Call (FitzOpen [Byte.x00; Byte.x00]);
        Log ERROR ("PDF text extraction failed: " +:+ "not a PDF")],
       Ok "").
Proof.
  split; [|split].
  - apply (proj1 (extract_pdf_text_all_or_nothing env_three_pages [])
             ["page one"; ""; "page three"]).
    reflexivity.
  - apply (proj1 (proj2 (extract_pdf_text_all_or_nothing env_three_pages [Byte.x00]))
             [Ok "page one"; Raised "damaged page"] "damaged page").
    + reflexivity.
    + apply elem_of_cons. right. apply elem_of_cons. by left.
  - apply (proj2 (proj2 (extract_pdf_text_all_or_nothing env_three_pages
                           [Byte.x00; Byte.x00]))).
    reflexivity.
Defined.

(** ** Normalisation of parsed rows *)

Lemma normalized_row_dom t : dom (normalized_row t) = list_to_set normalized_fields.
Proof.
  unfold normalized_row, normalized_fields.
  rewrite !dom_insert_L, dom_empty_L. simpl. set_solver.
Qed.

(** X6. [_normalize_transactions] yields one row per parsed row, in the
    parser's order, and each row has exactly the eight normalised keys, so no
    other key of a parsed row is carried over. Without a parser it returns no
    rows and calls nothing; an exception of the parser leaves the function. *)
Theorem normalize_transactions_rowwise (E : ptr_pdf_processor.env)
    (llm_csv_text : value) (member_data : gmap string value) :
  match hor_parse_llm_transactions E with
  | None =>
      result (_normalize_transactions E llm_csv_text member_data) = Ok []
      ∧ ∀ c, Call c ∉ trace (_normalize_transactions E llm_csv_text member_data)
  | Some parse =>
      match parse llm_csv_text member_data with
      | Ok parsed =>
          result (_normalize_transactions E llm_csv_text member_data)
            = Ok (normalized_row <$> parsed)
          ∧ Forall (λ row, dom row = list_to_set normalized_fields)
              (normalized_row <$> parsed)
      | Raised e =>
          result (_normalize_transactions E llm_csv_text member_data) = Raised e
      end
  end.
Proof.
  unfold _normalize_transactions.
  destruct (hor_parse_llm_transactions E) as [parse|].
  - destruct (parse llm_csv_text member_data) as [parsed|e] eqn:Hp.
    + split.
      * erewrite result_bind_ok by reflexivity.
        unfold result, ret. simpl. by rewrite normalize_rows_app.
      * apply Forall_fmap, Forall_forall. intros t _. apply normalized_row_dom.
    + by apply result_bind_raised.
  - split; [done|]. intros c Hin.
    apply elem_of_cons in Hin as [?|Hin]; [discriminate|].
    by apply elem_of_nil in Hin.
Qed.

(** ** Events a run never produces *)

Section trace_facts.
Context {A B : Type} (Q : event → Prop).

Lemma forall_trace_ret (a : A) : Forall Q (trace (ret a)).
Proof. constructor. Qed.

Lemma forall_trace_log lvl msg : Q (Log lvl msg) → Forall Q (trace (log lvl msg)).
Proof. intros HQ. by apply Forall_singleton. Qed.

Lemma forall_trace_invoke c (r : outcome A) : Q (Call c) → Forall Q (trace (invoke c r)).
Proof. intros HQ. by apply Forall_singleton. Qed.

Lemma forall_trace_bind (m : M A) (k : A → M B) :
  Forall Q (trace m) →
  (∀ a, result m = Ok a → Forall Q (trace (k a))) →
  Forall Q (trace (bind m k)).
Proof.
  destruct m as [written [a|e]]; unfold bind, trace, result; simpl; intros Hm Hk; [|done].
  specialize (Hk a eq_refl). destruct (k a). simpl in *. by apply Forall_app.
Qed.

Lemma forall_trace_try_except (body : M A) (handler : string → M A) :
  Forall Q (trace body) →
  (∀ e, result body = Raised e → Forall Q (trace (handler e))) →
  Forall Q (trace (try_except body handler)).
Proof.
  destruct body as [written [a|e]]; unfold try_except, trace, result; simpl;
    intros Hb Hh; [done|].
  specialize (Hh e eq_refl). destruct (handler e). simpl in *. by apply Forall_app.
Qed.

Lemma forall_trace_try_finally (body : M A) (cleanup : M unit) :
  Forall Q (trace body) → Forall Q (trace cleanup) →
  Forall Q (trace (try_finally body cleanup)).
Proof.
  destruct body as [written r], cleanup as [later [[]|e]];
    unfold try_finally, trace; simpl; intros Hb Hc; by apply Forall_app.
Qed.

End trace_facts.

(** Splits a goal about the trace of a composed computation into goals
    about its parts, down to the single events. *)
Ltac trace_forall :=
  repeat first
    [ apply forall_trace_ret
    | apply forall_trace_log
    | apply forall_trace_invoke
    | apply forall_trace_bind; [|intros ? ?]
    | apply forall_trace_try_except; [|intros ? ?]
    | apply forall_trace_try_finally ].

(** ** The PDF processor's two paths *)

Lemma process_ptr_pdf_scan_no_download (E : ptr_pdf_processor.env) pdf_url doc_id :
  Forall (λ ev, ∀ u, ev ≠ Call (RequestsGet u))
    (trace (process_ptr_pdf_scan E pdf_url doc_id)).
Proof.
  unfold process_ptr_pdf_scan, _normalize_transactions.
  destruct (hor_scan_with_openrouter E) as [scan|]; [|constructor].
  destruct (hor_parse_llm_transactions E) as [parse|]; [|constructor].
  trace_forall; by intros.
Qed.

(** X7. [process_ptr_pdf] downloads the PDF only on its fallback path, and
    the fallback never yields transactions: in every run whose trace holds a
    download, the result is the dict with an empty "transactions" list. *)
Theorem process_ptr_pdf_download_means_empty (E : ptr_pdf_processor.env)
    (pdf_url doc_id u : value) :
  Call (RequestsGet u) ∈ trace (process_ptr_pdf E pdf_url doc_id) →
  result (process_ptr_pdf E pdf_url doc_id) = Ok {["transactions" := []]}.
Proof.
  intros Hin.
  destruct (process_ptr_pdf_scan_returns E pdf_url doc_id)
    as [Hs|(transactions & Hs & _)].
  - rewrite (process_ptr_pdf_after_scan _ _ _ _ Hs).
    apply process_ptr_pdf_fallback_result.
  - exfalso. unfold process_ptr_pdf in Hin.
    erewrite trace_bind_ok in Hin by reflexivity.
    erewrite trace_bind_ok in Hin by exact Hs.
    apply elem_of_app in Hin as [Hin|Hin].
    { apply elem_of_cons in Hin as [?|Hin]; [discriminate|].
      by apply elem_of_nil in Hin. }
    apply elem_of_app in Hin as [Hin|Hin]; [|by apply elem_of_nil in Hin].
    pose proof (process_ptr_pdf_scan_no_download E pdf_url doc_id) as Hno.
    rewrite Forall_forall in Hno. by apply (Hno _ Hin u).
Qed.

Lemma process_ptr_pdf_download_means_empty_witness :
  result (process_ptr_pdf env_download_fails (VStr "u/1") (VStr "1"))
  = Ok {["transactions" := []]}.
Proof.
  apply (process_ptr_pdf_download_means_empty env_download_fails
           (VStr "u/1") (VStr "1") (VStr "u/1")).
  apply list_elem_of_lookup. exists 1%nat. reflexivity.
Defined.

(** ** The Senate loop *)

Lemma trace_try_finally {A} (body : M A) (cleanup : M unit) :
  trace (try_finally body cleanup) = trace body ++ trace cleanup.
Proof. by destruct body as [written r], cleanup as [later [[]|e]]. Qed.

Lemma result_try_finally {A} (body : M A) (cleanup : M unit) :
  result cleanup = Ok tt → result (try_finally body cleanup) = result body.
Proof.
  destruct body as [written r], cleanup as [later [[]|e]];
    unfold result; simpl; [done|discriminate].
Qed.

Lemma within_quota_cons {A} max_count count (x : A) (l : list A) :
  ¬ (0 < max_count ∧ max_count ≤ count) →
  within_quota max_count count (x :: l) = x :: within_quota max_count (count + 1) l.
Proof.
  intros Hgo. unfold within_quota. destruct (0 <? max_count) eqn:Hm; [|done].
  apply Z.ltb_lt in Hm.
  replace (Z.to_nat (max_count - count))
    with (S (Z.to_nat (max_count - (count + 1)))) by lia.
  done.
Qed.

Lemma within_quota_full {A} max_count count (l : list A) :
  0 < max_count → max_count ≤ count → within_quota max_count count l = [].
Proof.
  intros Hm Hc. unfold within_quota.
  replace (0 <? max_count) with true by (symmetry; apply Z.ltb_lt; lia).
  replace (Z.to_nat (max_count - count)) with 0%nat by lia. apply take_0.
Qed.

Section senate_loop_facts.
Context (E : daily_ptr_checker.env) (llm : senate_llm_module).

(** Processing a link appends to the rows collected so far. *)
Lemma senate_process_link_acc doc_id url member_name acc :
  result (senate_process_link E llm doc_id url member_name acc)
  = match result (senate_process_link E llm doc_id url member_name []) with
    | Ok rows => Ok (acc ++ rows)
    | Raised e => Raised e
    end.
Proof.
  unfold senate_process_link, bind, invoke, log, ret, result. simpl.
  destruct (driver_get E url) as [[]|]; simpl; [|done].
  destruct (extract_text_from_page E doc_id) as [text|]; simpl; [|done].
  destruct (negb (nonempty (strip text))); simpl; [by rewrite app_nil_r|].
  destruct (call_llm_api_with_text llm text _) as [csv_text|]; simpl; [|done].
  destruct (parse_llm_transactions llm _ _) as [parsed|]; simpl; [|done].
  by rewrite !senate_rows_app.
Qed.

Lemma senate_iteration_result doc_id url member_name acc :
  result (try_except
            (senate_process_link E llm doc_id url member_name acc)
            (λ e,
               log ERROR ("Senate " +:+ str doc_id +:+ ": processing failed: " +:+ e) ;;;
               ret acc))
  = Ok (acc ++ link_rows E llm (doc_id, url, member_name)).
Proof.
  unfold link_rows. cbn [fst snd].
  pose proof (senate_process_link_acc doc_id url member_name acc) as Hacc.
  destruct (result (senate_process_link E llm doc_id url member_name [])) as [rows|e].
  - by apply result_try_except_ok.
  - rewrite (result_try_except_raised _ _ e) by done. by rewrite app_nil_r.
Qed.

Lemma senate_links_loop_result links max_count count acc :
  result (senate_links_loop E llm links max_count count acc)
  = Ok (acc ++ flat_map (link_rows E llm)
                 (within_quota max_count count (List.filter usable_link links))).
Proof.
  revert count acc.
  induction links as [|[[doc_id url] member_name] rest IH]; intros count acc.
  - unfold within_quota. simpl. destruct (0 <? max_count); by rewrite ?take_nil, app_nil_r.
  - cbn [senate_links_loop List.filter]. unfold usable_link at 1. cbn [fst snd].
    destruct (truthy doc_id); [|apply IH].
    destruct (truthy url); [|apply IH]. cbn [negb orb andb].
    destruct ((0 <? max_count) && (max_count <=? count)) eqn:Hfull.
    + apply andb_true_iff in Hfull as [Hm Hc].
      apply Z.ltb_lt in Hm. apply Z.leb_le in Hc.
      rewrite within_quota_full by done. by rewrite app_nil_r.
    + rewrite within_quota_cons; last first.
      { intros [Hm Hc]. apply Z.ltb_lt in Hm. apply Z.leb_le in Hc.
        by rewrite Hm, Hc in Hfull. }
      erewrite result_bind_ok by apply senate_iteration_result.
      rewrite IH. cbn [flat_map]. by rewrite <- app_assoc.
Qed.

Lemma senate_links_loop_starts links max_count count acc :
  processing_starts (trace (senate_links_loop E llm links max_count count acc))
  = (λ link, DriverGet link.1.2)
      <$> within_quota max_count count (List.filter usable_link links).
Proof.
  revert count acc.
  induction links as [|[[doc_id url] member_name] rest IH]; intros count acc.
  - unfold within_quota. simpl. destruct (0 <? max_count); by rewrite ?take_nil.
  - cbn [senate_links_loop List.filter]. unfold usable_link at 1. cbn [fst snd].
    destruct (truthy doc_id); [|apply IH].
    destruct (truthy url); [|apply IH]. cbn [negb orb andb].
    destruct ((0 <? max_count) && (max_count <=? count)) eqn:Hfull.
    + apply andb_true_iff in Hfull as [Hm Hc].
      apply Z.ltb_lt in Hm. apply Z.leb_le in Hc.
      by rewrite within_quota_full.
    + rewrite within_quota_cons; last first.
      { intros [Hm Hc]. apply Z.ltb_lt in Hm. apply Z.leb_le in Hc.
        by rewrite Hm, Hc in Hfull. }
      erewrite trace_bind_ok by apply senate_iteration_result.
      by rewrite processing_starts_app, senate_iteration_starts, IH.
Qed.

Lemma senate_links_loop_keeps_driver links max_count count acc :
  Forall (λ ev, ev ≠ Call DriverQuit)
    (trace (senate_links_loop E llm links max_count count acc)).
Proof.
  revert count acc.
  induction links as [|[[doc_id url] member_name] rest IH]; intros count acc;
    [constructor|].
  cbn [senate_links_loop].
  destruct (negb (truthy doc_id) || negb (truthy url)); [apply IH|].
  destruct ((0 <? max_count) && (max_count <=? count)); [constructor|].
  apply forall_trace_bind; [|intros; apply IH].
  unfold senate_process_link. trace_forall; try done.
  destruct (negb (nonempty (strip a0))); trace_forall; done.
Qed.

End senate_loop_facts.

(** X8. Once Chrome is started and the session verified, the Senate stage
    navigates to exactly the usable links (truthy [doc_id] and [url]) that
    its quota lets through, in order: the first [max_count] of them for a
    positive quota, all of them otherwise. Links it skips do not count against
    the quota, and for a positive quota at most [max_count] links are
    visited. *)
Theorem senate_stage_visits (E : daily_ptr_checker.env) (llm : senate_llm_module)
    (links : list (value * value * value)) (headless : bool) (max_count : Z) :
  senate_llm E = Some llm →
  chrome_start E headless = Ok tt →
  verify_session E = Ok tt →
  processing_starts (trace (senate_links_to_transactions E links headless max_count))
  = (λ link, DriverGet link.1.2)
      <$> within_quota max_count 0 (List.filter usable_link links)
  ∧ (0 < max_count →
     len (processing_starts
            (trace (senate_links_to_transactions E links headless max_count)))
     ≤ max_count).
Proof.
  intros Hllm Hchrome Hverify.
  assert (processing_starts
            (trace (senate_links_to_transactions E links headless max_count))
          = (λ link, DriverGet link.1.2)
              <$> within_quota max_count 0 (List.filter usable_link links)) as Hstarts.
  { unfold senate_links_to_transactions. rewrite Hllm.
    erewrite trace_bind_ok by (unfold invoke, result; simpl; exact Hchrome).
    rewrite trace_try_finally.
    erewrite trace_bind_ok by (unfold invoke, result; simpl; exact Hverify).
    rewrite !processing_starts_app, senate_links_loop_starts.
    unfold invoke, trace. simpl. by rewrite app_nil_r. }
  split; [done|]. intros Hm. rewrite Hstarts. unfold len, within_quota.
  replace (0 <? max_count) with true by (symmetry; apply Z.ltb_lt; lia).
  rewrite length_fmap, length_take. lia.
Qed.

(** The rows of one link, read off the collaborators: the rows built from
    what the parser returns, and none when navigation, text extraction, the
    LLM call or the parser raises, or when the page text is empty after
    stripping. *)
Lemma link_rows_by_outcome (E : daily_ptr_checker.env) (llm : senate_llm_module)
    (doc_id url member_name : value) :
  link_rows E llm (doc_id, url, member_name)
  = match driver_get E url, extract_text_from_page E doc_id with
    | Ok _, Ok text =>
        if nonempty (strip text)
        then
          match call_llm_api_with_text llm text
                  (<["URL" := url]> (<["Name" := member_name]> {["DocID" := doc_id]})) with
          | Ok csv_text =>
              match parse_llm_transactions llm (or_else csv_text (VStr ""))
                      {["DocID" := doc_id]} with
              | Ok parsed => senate_row doc_id member_name url <$> parsed
              | Raised _ => []
              end
          | Raised _ => []
          end
        else []
    | _, _ => []
    end.
Proof.
  unfold link_rows, senate_process_link, bind, invoke, log, ret, result. simpl.
  destruct (driver_get E url) as [[]|]; simpl; [|done].
  destruct (extract_text_from_page E doc_id) as [text|]; simpl; [|done].
  destruct (nonempty (strip text)); simpl; [|done].
  destruct (call_llm_api_with_text llm text _) as [csv_text|]; simpl; [|done].
  destruct (parse_llm_transactions llm _ _) as [parsed|]; simpl; [|done].
  by rewrite senate_rows_app.
Qed.

(** X9. When Chrome starts, the session is verified and the browser quits
    cleanly, the Senate stage returns, whatever happens on the single pages:
    its output is the concatenation, in link order, of the rows of the links
    it visits. The rows of a link are those built from what the parser
    returned for its page; a link whose navigation, text extraction, LLM call
    or parser raised, or whose page text is empty after stripping, adds
    nothing and does not stop the links after it. *)
Theorem senate_stage_isolates_failures (E : daily_ptr_checker.env)
    (llm : senate_llm_module) (links : list (value * value * value))
    (headless : bool) (max_count : Z) :
  senate_llm E = Some llm →
  chrome_start E headless = Ok tt →
  verify_session E = Ok tt →
  driver_quit E = Ok tt →
  result (senate_links_to_transactions E links headless max_count)
  = Ok (flat_map (link_rows E llm)
          (within_quota max_count 0 (List.filter usable_link links)))
  ∧ ∀ doc_id url member_name,
      link_rows E llm (doc_id, url, member_name)
      = match driver_get E url, extract_text_from_page E doc_id with
        | Ok _, Ok text =>
            if nonempty (strip text)
            then
              match call_llm_api_with_text llm text
                      (<["URL" := url]> (<["Name" := member_name]> {["DocID" := doc_id]})) with
              | Ok csv_text =>
                  match parse_llm_transactions llm (or_else csv_text (VStr ""))
                          {["DocID" := doc_id]} with
                  | Ok parsed => senate_row doc_id member_name url <$> parsed
                  | Raised _ => []
                  end
              | Raised _ => []
              end
            else []
        | _, _ => []
        end.
Proof.
  intros Hllm Hchrome Hverify Hquit. split; [|apply link_rows_by_outcome].
  unfold senate_links_to_transactions. rewrite Hllm.
  erewrite result_bind_ok by (unfold invoke, result; simpl; exact Hchrome).
  rewrite result_try_finally by (unfold invoke, result; simpl; exact Hquit).
  erewrite result_bind_ok by (unfold invoke, result; simpl; exact Hverify).
  by rewrite senate_links_loop_result.
Qed.

(** X10. The browser is released on every exit path: once Chrome has
    started, [driver.quit] is the last call of the Senate stage and is made
    exactly once, also when the session check raises. When starting Chrome
    itself raises, the exception leaves the stage and nothing else is
    called. *)
Theorem senate_stage_releases_driver (E : daily_ptr_checker.env)
    (llm : senate_llm_module) (links : list (value * value * value))
    (headless : bool) (max_count : Z) :
  senate_llm E = Some llm →
  (chrome_start E headless = Ok tt →
   ∃ before,
     trace (senate_links_to_transactions E links headless max_count)
       = before ++ [Call DriverQuit]
     ∧ Call DriverQuit ∉ before)
  ∧ (∀ e, chrome_start E headless = Raised e →
       senate_links_to_transactions E links headless max_count
       = ([Call (ChromeStart headless)], Raised e)).
Proof.
  intros Hllm. unfold senate_links_to_transactions. rewrite Hllm. split.
  - intros Hchrome.
    exists ([Call (ChromeStart headless)]
            ++ trace (bind (invoke VerifySession (verify_session E))
                        (λ _, senate_links_loop E llm links max_count 0 []))).
    split.
    + erewrite trace_bind_ok by (unfold invoke, result; simpl; exact Hchrome).
      rewrite trace_try_finally. by rewrite <- app_assoc.
    + intros Hin. apply elem_of_app in Hin as [Hin|Hin].
      { apply elem_of_cons in Hin as [?|Hin]; [discriminate|].
        by apply elem_of_nil in Hin. }
      assert (Forall (λ ev, ev ≠ Call DriverQuit)
                (trace (bind (invoke VerifySession (verify_session E))
                          (λ _, senate_links_loop E llm links max_count 0 [])))) as Hno.
      { apply forall_trace_bind; [by apply forall_trace_invoke|].
        intros. apply senate_links_loop_keeps_driver. }
      rewrite Forall_forall in Hno. by apply (Hno _ Hin).
  - intros e Hchrome. unfold bind, invoke. simpl. by rewrite Hchrome.
Qed.

Lemma senate_stage_visits_witness :
  processing_starts (trace (senate_links_to_transactions (flaky_env (Ok tt)) demo_links true 2))
  = (λ link, DriverGet link.1.2) <$> within_quota 2 0 (List.filter usable_link demo_links)
  ∧ (0 < 2 →
     len (processing_starts
            (trace (senate_links_to_transactions (flaky_env (Ok tt)) demo_links true 2)))
     ≤ 2).
Proof.
  exact (senate_stage_visits (flaky_env (Ok tt)) working_llm demo_links true 2
           eq_refl eq_refl eq_refl).
Defined.

Lemma senate_stage_isolates_failures_witness :
  result (senate_links_to_transactions (flaky_env (Ok tt)) demo_links true 0)
  = Ok (flat_map (link_rows (flaky_env (Ok tt)) working_llm)
          (within_quota 0 0 (List.filter usable_link demo_links)))
  ∧ flat_map (link_rows (flaky_env (Ok tt)) working_llm)
      (within_quota 0 0 (List.filter usable_link demo_links))
    = [senate_row (VStr "S1") (VStr "Sen. S1") (VStr "senate/S1") parsed_row;
       senate_row (VStr "S3") (VStr "Sen. S3") (VStr "senate/S3") parsed_row]
  ∧ result (senate_links_to_transactions blank_page_env demo_links true 0)
    = Ok (flat_map (link_rows blank_page_env working_llm)
            (within_quota 0 0 (List.filter usable_link demo_links)))
  ∧ flat_map (link_rows blank_page_env working_llm)
      (within_quota 0 0 (List.filter usable_link demo_links))
    = [senate_row (VStr "S1") (VStr "Sen. S1") (VStr "senate/S1") parsed_row].
Proof.
  split; [|split; [|split]].
  - exact (proj1 (senate_stage_isolates_failures (flaky_env (Ok tt)) working_llm
                    demo_links true 0 eq_refl eq_refl eq_refl eq_refl)).
  - vm_compute. reflexivity.
  - exact (proj1 (senate_stage_isolates_failures blank_page_env working_llm
                    demo_links true 0 eq_refl eq_refl eq_refl eq_refl)).
  - vm_compute. reflexivity.
Defined.

Lemma senate_stage_releases_driver_witness :
  (∃ before,
     trace (senate_links_to_transactions (flaky_env (Raised "session refused"))
              demo_links true 0)
       = before ++ [Call DriverQuit]
     ∧ Call DriverQuit ∉ before)
  ∧ senate_links_to_transactions chromeless_env demo_links true 0
    = ([Call (ChromeStart true)], Raised "chromedriver missing").
Proof.
  split.
  - exact (proj1 (senate_stage_releases_driver (flaky_env (Raised "session refused"))
                    working_llm demo_links true 0 eq_refl) eq_refl).
  - exact (proj2 (senate_stage_releases_driver chromeless_env
                    working_llm demo_links true 0 eq_refl)
             "chromedriver missing" eq_refl).
Defined.

(** ** What the driver does to the store *)

(** Everything before the persistence step leaves the store's batch write
    alone: the trace of every function but [persist_transactions] satisfies
    any predicate that holds of log lines and of all other calls. *)
Section before_persistence.
Context (Q : event → Prop).
Context (Qlog : ∀ lvl msg, Q (Log lvl msg)).
Context (Qcall : ∀ c, (∀ transactions, c ≠ DbProcessTransactionsBatch transactions) →
                      Q (Call c)).

Ltac harmless := first [apply Qlog | apply Qcall; intros; discriminate].

Lemma extract_pages_harmless i doc text : Forall Q (trace (extract_pages i doc text)).
Proof.
  revert i text. induction doc as [|page rest IH]; intros i text; [constructor|].
  cbn [extract_pages]. apply forall_trace_bind; [trace_forall; harmless|].
  intros page_text _. destruct (nonempty page_text); apply IH.
Qed.

Lemma process_ptr_pdf_harmless (E : ptr_pdf_processor.env) pdf_url doc_id :
  Forall Q (trace (process_ptr_pdf E pdf_url doc_id)).
Proof.
  unfold process_ptr_pdf. apply forall_trace_bind; [trace_forall; harmless|].
  intros _ _. apply forall_trace_bind.
  - unfold process_ptr_pdf_scan, _normalize_transactions.
    destruct (hor_scan_with_openrouter E) as [scan|]; [|constructor].
    destruct (hor_parse_llm_transactions E) as [parse|]; [|constructor].
    trace_forall; harmless.
  - intros [processed|] _; [constructor|].
    unfold process_ptr_pdf_fallback, _download, _extract_pdf_text.
    apply forall_trace_bind; [trace_forall; try harmless; constructor|].
    intros [pdf_bytes|] _; [|constructor].
    apply forall_trace_bind.
    + apply forall_trace_try_except; [|intros; trace_forall; harmless].
      apply forall_trace_bind; [trace_forall; harmless|].
      intros doc _. apply forall_trace_bind; [apply extract_pages_harmless|].
      intros. constructor.
    + intros text _. destruct (negb (nonempty (strip text)) || _); trace_forall; harmless.
Qed.

Lemma process_filings_loop_harmless
    (P : value → value → M (gmap string (list (gmap string value))))
    total idx filings acc :
  (∀ pdf_url doc_id, Forall Q (trace (P pdf_url doc_id))) →
  Forall Q (trace (process_filings_loop P total idx filings acc)).
Proof.
  intros HP. revert idx acc.
  induction filings as [|f rest IH]; intros idx acc; [constructor|].
  cbn [process_filings_loop].
  apply forall_trace_bind; [trace_forall; harmless|]. intros _ _.
  apply forall_trace_bind; [|intros; apply IH].
  apply forall_trace_try_except; [|intros; trace_forall; harmless].
  apply forall_trace_bind; [apply HP|]. intros. trace_forall; harmless.
Qed.

Lemma senate_links_loop_harmless (E : daily_ptr_checker.env) llm links max_count count acc :
  Forall Q (trace (senate_links_loop E llm links max_count count acc)).
Proof.
  revert count acc.
  induction links as [|[[doc_id url] member_name] rest IH]; intros count acc;
    [constructor|].
  cbn [senate_links_loop].
  destruct (negb (truthy doc_id) || negb (truthy url)); [apply IH|].
  destruct ((0 <? max_count) && (max_count <=? count)); [constructor|].
  apply forall_trace_bind; [|intros; apply IH].
  unfold senate_process_link. trace_forall; try harmless.
  destruct (negb (nonempty (strip a0))); trace_forall; harmless.
Qed.

Lemma senate_links_to_transactions_harmless (E : daily_ptr_checker.env)
    links headless max_count :
  Forall Q (trace (senate_links_to_transactions E links headless max_count)).
Proof.
  unfold senate_links_to_transactions.
  destruct (senate_llm E) as [llm|]; [|trace_forall; harmless].
  trace_forall; try harmless. apply senate_links_loop_harmless.
Qed.

Lemma senate_scrape_links_harmless (E : daily_ptr_checker.env) max_pages :
  Forall Q (trace (senate_scrape_links E max_pages)).
Proof.
  unfold senate_scrape_links.
  destruct (senate_scraper E); trace_forall; harmless.
Qed.

Lemma main_scrape_house_harmless (E : daily_ptr_checker.env) a :
  Forall Q (trace (main_scrape_house E a)).
Proof.
  unfold main_scrape_house, scrape_ptrs.
  destruct (arg_house a); [|constructor].
  trace_forall; try harmless.
  - destruct (some_items a2); trace_forall; harmless.
  - destruct (arg_save_scrape_json a); trace_forall; harmless.
Qed.

Lemma main_house_harmless (E : daily_ptr_checker.env) a filings existing_doc_ids :
  Forall Q (trace (main_house E a filings existing_doc_ids)).
Proof.
  unfold main_house.
  destruct (arg_house a && some_items filings); [|constructor].
  apply forall_trace_bind; [unfold filter_new_filings; trace_forall; harmless|].
  intros new_filings _. destruct (some_items new_filings); [|trace_forall; harmless].
  apply forall_trace_bind; [|intros; constructor].
  apply process_filings_loop_harmless. intros. apply process_ptr_pdf_harmless.
Qed.

Lemma main_senate_harmless (E : daily_ptr_checker.env) a existing_doc_ids all_transactions :
  Forall Q (trace (main_senate E a existing_doc_ids all_transactions)).
Proof.
  unfold main_senate.
  destruct (arg_senate a && bool_decide (is_Some (senate_scraper E))
            && bool_decide (is_Some (senate_llm E))); [|constructor].
  apply forall_trace_bind; [apply senate_scrape_links_harmless|].
  intros s_links _. destruct (some_items s_links); [|trace_forall; harmless].
  apply forall_trace_bind; [apply senate_links_to_transactions_harmless|].
  intros. constructor.
Qed.

End before_persistence.

Lemma senate_scrape_links_returns (E : daily_ptr_checker.env) max_pages :
  ∃ links, result (senate_scrape_links E max_pages) = Ok links.
Proof.
  unfold senate_scrape_links. destruct (senate_scraper E) as [[links|e]|]; by eexists.
Qed.

Lemma filter_new_loop_new filings K limit :
  Forall (λ f, is_new K f = true) (filter_new_loop filings K limit []).
Proof. rewrite filter_new_loop_capped. apply capped_all, filter_is_new_all. Qed.

Lemma house_record_fresh K new_filings tx :
  Forall (λ f, is_new K f = true) new_filings →
  house_record new_filings tx → fresh_record K tx.
Proof.
  intros Hnew (f & t & Hf & ->). rewrite Forall_forall in Hnew.
  specialize (Hnew f Hf). unfold is_new in Hnew.
  apply andb_true_iff in Hnew as [Ht Hk]. apply negb_true_iff in Hk.
  split.
  - exists (get f "doc_id"). split; [|done]. apply tagged_metadata.
  - apply (house_record_canonical _ _ _ _ t).
Qed.

Lemma senate_record_fresh K (s_links : list (value * value * value)) tx :
  senate_record
    (List.filter (λ '(d, u, m), truthy d && negb (in_ids d K)) s_links) tx →
  fresh_record K tx.
Proof.
  intros (doc_id & url & member_name & t & Hin & ->).
  apply list_elem_of_In, filter_In in Hin as [_ Hnew].
  apply andb_true_iff in Hnew as [Ht Hk]. apply negb_true_iff in Hk.
  split.
  - exists doc_id. split; [|done]. unfold senate_row. by simplify_map_eq.
  - apply (senate_record_canonical _ _ _ t).
Qed.

Lemma main_house_fresh (E : daily_ptr_checker.env) a filings K out :
  result (main_house E a filings K) = Ok out → Forall (fresh_record K) out.
Proof.
  unfold main_house.
  destruct (arg_house a && some_items filings); [|intros [= <-]; constructor].
  erewrite result_bind_ok by apply result_filter_new_filings.
  destruct (some_items _); [|intros [= <-]; constructor].
  unfold process_filings_to_transactions. rewrite process_filings_loop_spec.
  unfold bind, ret, result. simpl. intros [= <-].
  apply Forall_flat_map, Forall_forall. intros f Hf.
  eapply Forall_impl; [by apply house_contribution_records|].
  intros tx Htx. eapply house_record_fresh; [apply filter_new_loop_new|done].
Qed.

Lemma main_senate_fresh (E : daily_ptr_checker.env) a K all_transactions out :
  Forall (fresh_record K) all_transactions →
  result (main_senate E a K all_transactions) = Ok out →
  Forall (fresh_record K) out.
Proof.
  intros Hall. unfold main_senate.
  destruct (arg_senate a && bool_decide (is_Some (senate_scraper E))
            && bool_decide (is_Some (senate_llm E))) eqn:Hon;
    [|by intros [= <-]].
  apply andb_true_iff in Hon as [_ Hllm].
  apply bool_decide_eq_true in Hllm as [llm Hllm].
  destruct (senate_scrape_links_returns E (arg_max_pages a)) as [s_links Hs].
  erewrite result_bind_ok by exact Hs.
  destruct (some_items s_links); [|by intros [= <-]].
  destruct (result (senate_links_to_transactions E
              (List.filter (λ '(d, u, m), truthy d && negb (in_ids d K)) s_links)
              (arg_headless a)
              (max_count (arg_house a) (Z.max 0 (arg_limit a))
                 (remaining (Z.max 0 (arg_limit a)) all_transactions))))
    as [senate_transactions|e] eqn:Hr.
  - erewrite result_bind_ok by exact Hr. intros [= <-].
    apply Forall_app. split; [done|].
    eapply Forall_impl;
      [by eapply senate_links_to_transactions_records|].
    intros tx Htx. by eapply senate_record_fresh.
  - erewrite result_bind_raised by exact Hr. discriminate.
Qed.

Lemma loaded_ids (E : daily_ptr_checker.env) K :
  result (try_except
            (invoke DbInit (supabase_init E) ;;;
             let* existing_doc_ids :=
               invoke DbGetExistingDocIds (get_existing_doc_ids E) in
             ret (Some existing_doc_ids))
            (λ e, log ERROR ("Database initialization failed: " +:+ e) ;;; ret None))
  = Ok (Some K) →
  get_existing_doc_ids E = Ok K.
Proof.
  unfold try_except, bind, invoke, log, ret, result. simpl.
  destruct (supabase_init E) as [[]|]; simpl; [|discriminate].
  destruct (get_existing_doc_ids E) as [K'|]; simpl; [|discriminate].
  by intros [= ->].
Qed.

Lemma write_contract_log E a lvl msg : write_contract E a (Log lvl msg).
Proof. exact I. Qed.

Lemma write_contract_call E a c :
  (∀ transactions, c ≠ DbProcessTransactionsBatch transactions) →
  write_contract E a (Call c).
Proof. intros Hc. destruct c; try exact I. by destruct (Hc transactions). Qed.

(** Every event of a run of the driver keeps the write contract. *)
Lemma main_keeps_write_contract (E : daily_ptr_checker.env) (a : args) :
  Forall (write_contract E a) (trace (main E a)).
Proof.
  pose proof (write_contract_log E a) as Hlog.
  pose proof (write_contract_call E a) as Hcall.
  unfold main.
  apply forall_trace_bind; [by apply main_scrape_house_harmless|]. intros filings _.
  apply forall_trace_bind.
  { trace_forall; exact I. }
  intros [K|] Hloaded; [|constructor]. apply loaded_ids in Hloaded.
  apply forall_trace_bind; [by apply main_house_harmless|]. intros house Hhouse.
  apply forall_trace_bind; [by apply main_senate_harmless|]. intros all Hall.
  destruct (negb (some_items all)) eqn:Hsome; [by apply forall_trace_log|].
  apply forall_trace_bind; [|intros; by apply forall_trace_log].
  unfold persist_transactions. destruct (arg_dry_run a) eqn:Hdry.
  - trace_forall; try exact I. destruct all; trace_forall; exact I.
  - trace_forall; [exact I|].
    simpl. split; [done|]. split; [by destruct all|].
    exists K. split; [done|].
    eapply main_senate_fresh; [|exact Hall]. by eapply main_house_fresh.
Qed.

(** X11. In dry-run mode a run of the whole driver never invokes the
    store's batch write, whatever the collaborators do. *)
Theorem main_dry_run_never_writes (E : daily_ptr_checker.env) (a : args) :
  arg_dry_run a = true →
  ∀ transactions, Call (DbProcessTransactionsBatch transactions) ∉ trace (main E a).
Proof.
  intros Hdry transactions Hin.
  pose proof (main_keeps_write_contract E a) as Hall.
  rewrite Forall_forall in Hall. destruct (Hall _ Hin) as [Hno _]. congruence.
Qed.

(** X12. The driver writes to the store only what it extracted in this
    run from filings it had not seen: every batch handed to the store is
    non-empty, and each of its records has the twelve canonical fields and a
    truthy [doc_id] that is not among the known identifiers read at the start
    of the run. *)
Theorem main_writes_fresh_records (E : daily_ptr_checker.env) (a : args)
    (transactions : list (gmap string value)) :
  Call (DbProcessTransactionsBatch transactions) ∈ trace (main E a) →
  transactions ≠ []
  ∧ ∃ existing_doc_ids,
      get_existing_doc_ids E = Ok existing_doc_ids
      ∧ Forall (fresh_record existing_doc_ids) transactions.
Proof.
  intros Hin.
  pose proof (main_keeps_write_contract E a) as Hall.
  rewrite Forall_forall in Hall. by destruct (Hall _ Hin) as (_ & Hne & Hfresh).
Qed.

Lemma main_dry_run_never_writes_witness :
  arg_dry_run (dry_run_args 5) = true
  ∧ Call (DbProcessTransactionsBatch [parsed_row])
    ∉ trace (main (working_env (Ok [house_filing "H1"]) 1 (Ok [senate_link "S1"]))
               (dry_run_args 5)).
Proof.
  split; [reflexivity|].
  exact (main_dry_run_never_writes
           (working_env (Ok [house_filing "H1"]) 1 (Ok [senate_link "S1"]))
           (dry_run_args 5) eq_refl [parsed_row]).
Defined.

Lemma main_writes_fresh_records_witness :
  [tagged (VStr "H1") (VStr "Rep. H1") (VStr "House") (VStr "house/H1")
     (normalized_row parsed_row);
   senate_row (VStr "S1") (VStr "Sen. S1") (VStr "senate/S1") parsed_row] ≠ []
  ∧ ∃ existing_doc_ids,
      get_existing_doc_ids (working_env (Ok [house_filing "H1"]) 1 (Ok [senate_link "S1"]))
        = Ok existing_doc_ids
      ∧ Forall (fresh_record existing_doc_ids)
          [tagged (VStr "H1") (VStr "Rep. H1") (VStr "House") (VStr "house/H1")
             (normalized_row parsed_row);
           senate_row (VStr "S1") (VStr "Sen. S1") (VStr "senate/S1") parsed_row].
Proof.
  apply (main_writes_fresh_records
           (working_env (Ok [house_filing "H1"]) 1 (Ok [senate_link "S1"]))
           (live_args 5)).
  apply list_elem_of_lookup. exists 24%nat. vm_compute. reflexivity.
Defined.

(** X13. When the store cannot be constructed, or its read of the known
    identifiers raises, a run whose House scrape returned ends normally right
    there: the failure is logged, and after the attempt on the store nothing
    is extracted, scraped or written. *)
Theorem main_store_failure_ends_run (E : daily_ptr_checker.env) (a : args)
    (filings : list (gmap string value)) (e : string) :
  result (main_scrape_house E a) = Ok filings →
  (supabase_init E = Raised e
   ∨ supabase_init E = Ok tt ∧ get_existing_doc_ids E = Raised e) →
  result (main E a) = Ok tt
  ∧ trace (main E a)
    = trace (main_scrape_house E a)
      ++ Call DbInit
         :: match supabase_init E with
            | Ok _ => [Call DbGetExistingDocIds]
            | Raised _ => []
            end
      ++ [Log ERROR ("Database initialization failed: " +:+ e)].
Proof.
  intros Hscrape Hstore. unfold main.
  erewrite result_bind_ok, trace_bind_ok by exact Hscrape.
  destruct Hstore as [Hinit|[Hinit Hread]].
  - unfold try_except, bind, invoke, log, ret, result, trace. simpl.
    rewrite Hinit. by simpl.
  - unfold try_except, bind, invoke, log, ret, result, trace. simpl.
    rewrite Hinit. simpl. rewrite Hread. by simpl.
Qed.

Lemma main_store_failure_ends_run_witness :
  (result (main (storeless_env (Raised "no credentials")) (live_args 5)) = Ok tt
   ∧ trace (main (storeless_env (Raised "no credentials")) (live_args 5))
     = trace (main_scrape_house (storeless_env (Raised "no credentials")) (live_args 5))
       ++ Call DbInit
          :: match supabase_init (storeless_env (Raised "no credentials")) with
             | Ok _ => [Call DbGetExistingDocIds]
             | Raised _ => []
             end
       ++ [Log ERROR ("Database initialization failed: " +:+ "no credentials")])
  ∧ (result (main (storeless_env (Ok tt)) (live_args 5)) = Ok tt
     ∧ trace (main (storeless_env (Ok tt)) (live_args 5))
       = trace (main_scrape_house (storeless_env (Ok tt)) (live_args 5))
         ++ Call DbInit
            :: match supabase_init (storeless_env (Ok tt)) with
               | Ok _ => [Call DbGetExistingDocIds]
               | Raised _ => []
               end
         ++ [Log ERROR ("Database initialization failed: " +:+ "read refused")]).
Proof.
  split.
  - apply (main_store_failure_ends_run (storeless_env (Raised "no credentials"))
             (live_args 5) [house_filing "H1"] "no credentials").
    + vm_compute. reflexivity.
    + left. reflexivity.
  - apply (main_store_failure_ends_run (storeless_env (Ok tt))
             (live_args 5) [house_filing "H1"] "read refused").
    + vm_compute. reflexivity.
    + right. split; reflexivity.
Defined.

(** ** The Senate stage under the overall limit *)

Lemma max_count_bounds include_house (L : Z) (all_transactions : list (gmap string value)) :
  0 < L → 0 < max_count include_house L (remaining L all_transactions) ≤ L.
Proof.
  intros HL. unfold max_count, remaining.
  replace (0 <? L) with true by (symmetry; apply Z.ltb_lt; lia).
  assert (0 ≤ len all_transactions) by (unfold len; lia).
  destruct include_house; simpl; [|lia].
  destruct (0 <? Z.max 0 (L - len all_transactions)) eqn:Hpos; [|lia].
  apply Z.ltb_lt in Hpos. lia.
Qed.

Lemma trace_bind_ret {A B} (m : M A) (f : A → B) :
  trace (bind m (λ x, ret (f x))) = trace m.
Proof.
  destruct m as [written [x|e]]; unfold bind, ret, trace; simpl; [|done].
  by rewrite app_nil_r.
Qed.

Lemma senate_stage_cap (E : daily_ptr_checker.env) links headless max_count :
  0 < max_count →
  len (processing_starts (trace (senate_links_to_transactions E links headless max_count)))
  ≤ max_count.
Proof.
  intros Hm. unfold senate_links_to_transactions.
  destruct (senate_llm E) as [llm|]; [|unfold len; simpl; lia].
  destruct (chrome_start E headless) as [[]|e] eqn:Hchrome.
  - erewrite trace_bind_ok by reflexivity. rewrite trace_try_finally.
    destruct (verify_session E) as [[]|e] eqn:Hverify.
    + erewrite trace_bind_ok by reflexivity.
      rewrite !processing_starts_app, senate_links_loop_starts.
      unfold invoke, trace, len, within_quota. simpl.
      replace (0 <? max_count) with true by (symmetry; apply Z.ltb_lt; lia).
      rewrite app_nil_r, length_fmap, length_take. lia.
    + erewrite trace_bind_raised by reflexivity. unfold len. simpl. lia.
  - erewrite trace_bind_raised by reflexivity. unfold len. simpl. lia.
Qed.

(** X14. For a positive overall limit, the Senate stage of a run navigates
    to at most [limit] links, whatever the House stage left in the combined
    list and whether or not the House stage is enabled. *)
Theorem main_senate_respects_limit (E : daily_ptr_checker.env) (a : args)
    (existing_doc_ids : gset string) (all_transactions : list (gmap string value)) :
  0 < arg_limit a →
  len (processing_starts (trace (main_senate E a existing_doc_ids all_transactions)))
  ≤ arg_limit a.
Proof.
  intros HL. unfold main_senate. rewrite Z.max_r by lia.
  destruct (arg_senate a && bool_decide (is_Some (senate_scraper E))
            && bool_decide (is_Some (senate_llm E))); [|unfold len; simpl; lia].
  destruct (senate_scrape_links_returns E (arg_max_pages a)) as [s_links Hs].
  erewrite trace_bind_ok by exact Hs. rewrite processing_starts_app.
  assert (processing_starts (trace (senate_scrape_links E (arg_max_pages a))) = []) as ->.
  { unfold senate_scrape_links. by destruct (senate_scraper E) as [[links|e]|]. }
  destruct (some_items s_links); [|unfold len; simpl; lia].
  rewrite app_nil_l, trace_bind_ret.
  pose proof (max_count_bounds (arg_house a) (arg_limit a) all_transactions HL) as [Hpos Hle].
  etrans; [by apply senate_stage_cap|done].
Qed.

Lemma main_senate_respects_limit_witness :
  len (processing_starts
         (trace (main_senate
                   (working_env (Ok [])
                      1 (Ok [senate_link "S1"; senate_link "S2"; senate_link "S3"]))
                   (live_args 2) ∅ [])))
  ≤ arg_limit (live_args 2).
Proof.
  apply (main_senate_respects_limit
           (working_env (Ok []) 1 (Ok [senate_link "S1"; senate_link "S2"; senate_link "S3"]))
           (live_args 2) ∅ []).
  reflexivity.
Defined.
